(** * mealmatcher: the meal ranking core, embedded and verified

  The repository holds two revisions of [validation.ts]:
  - the strict one ([matchMeals], positional output), embedded in [Module Strict];
  - the rich one ([rankMeals], keyed plan, de-duplication, random fallback),
    embedded in [Module Rich].

  Numbers of the catalogue ([PreparationTimeMinutes], [NumberOfPeople], ...)
  are JavaScript numbers holding integers; they are embedded as [Z].
  [Quantity] is the one numeric field the code computes, so it is embedded
  as a [number] that can also be [NaN] or infinite (division by a zero
  [NumberOfPeople]).  A field that is absent from an object is [None]. *)

From Stdlib Require Import ZArith QArith Qround List String Ascii Bool Lia DecimalString.
From Stdlib Require Import Permutation Sorted.
From Stdlib Require DecimalPos DecimalZ.
From stdpp Require Import base option gmap strings.
Import ListNotations.

Local Open Scope string_scope.
Local Open Scope list_scope.
Local Open Scope Z_scope.

(** ** The JavaScript runtime the code calls into *)

(** [new Date(s).getDay()] and [Math.random()] are not code of the repository.
    [Date_getDay s] is the weekday number of the date string [s]
    ([0] = Sunday, ..., [6] = Saturday), or [None] when it is [NaN]
    (an invalid date).  [Math_random k] is the value returned by the [k]-th
    call of [Math.random()], a rational of the interval [0, 1).
    [Math_floor_times x n] is [Math.floor(x * n)] as the runtime computes it:
    the product is rounded to a double before the floor is taken, so it need
    not be the floor of the exact product; for a value of [Math.random()] and
    the length [n] of a non-empty array it is an index of the array. *)
Class JsRuntime := {
  Date_getDay : string -> option Z;
  Math_random : nat -> Q;
  Math_random_range : forall k, (0 <= Math_random k)%Q /\ (Math_random k < 1)%Q;
  Math_floor_times : Q -> nat -> Z;
  Math_floor_times_range :
    forall k n, (0 < n)%nat ->
                0 <= Math_floor_times (Math_random k) n < Z.of_nat n
}.

(** ** JavaScript numbers, as far as [Quantity] needs them *)

Inductive number :=
| Num (z : Z)
| NaN
| Infinity (negative : bool).

(** [Math.ceil(a / b)] for integers [a], [b]. *)
Definition Math_ceil_div (a b : Z) : number :=
  if b =? 0 then
    if a =? 0 then NaN else Infinity (a <? 0)
  else Num (Qceiling (inject_Z a / inject_Z b)).

Definition is_negative (x : number) : bool :=
  match x with
  | Num z => z <? 0
  | NaN => false
  | Infinity s => s
  end.

Definition is_zero (x : number) : bool :=
  match x with
  | Num z => z =? 0
  | _ => false
  end.

(** [x * y] *)
Definition number_mul (x y : number) : number :=
  match x, y with
  | NaN, _ | _, NaN => NaN
  | Num a, Num b => Num (a * b)
  | _, _ =>
      if is_zero x || is_zero y then NaN
      else Infinity (xorb (is_negative x) (is_negative y))
  end.

(** ** Data model: [types/index.ts] *)

Module Meal.
Record t := {
  Slug : string;
  Meal : string;
  PreparationTimeMinutes : Z;
  CanBeLeftovers : bool;
  NumberOfPeople : Z
}.
End Meal.

Module Product.
Record t := {
  Meal : string;
  Quantity : number;
  MaxShelfLifeInDays : option Z;
  IsBonusRequired : bool;
  ID : string;
  URL : string
}.

(** [{ ...p, Quantity: q }] *)
Definition withQuantity (p : t) (q : number) : t :=
  {| Meal := Meal p;
     Quantity := q;
     MaxShelfLifeInDays := MaxShelfLifeInDays p;
     IsBonusRequired := IsBonusRequired p;
     ID := ID p;
     URL := URL p |}.
End Product.

Module WeekDay.
Record t := {
  Day : string;
  Date : string;
  NumberOfPeople : Z;
  NumberOfPeopleLeftovers : Z;
  MaxPreparationTime : Z
}.
End WeekDay.

(** ** Array helpers *)

(** [Array.prototype.sort(cmp)]: the sort is stable, an element [a] goes
    before [b] when [cmp a b < 0] and equal elements keep their order. *)
Section JsSort.
Context {A : Type} (cmp : A -> A -> Z).

Fixpoint sort_insert (x : A) (l : list A) : list A :=
  match l with
  | [] => [x]
  | y :: l' => if cmp x y <=? 0 then x :: l else y :: sort_insert x l'
  end.

Definition js_sort (l : list A) : list A := fold_right sort_insert [] l.
End JsSort.

(** [ids.includes(id)] *)
Definition includes (ids : list string) (id : string) : bool :=
  existsb (String.eqb id) ids.

(** [p.Meal === meal.Slug] *)
Definition ownedBy (m : Meal.t) (p : Product.t) : bool :=
  String.eqb (Product.Meal p) (Meal.Slug m).

(** ** Evaluators shared by both revisions *)

Definition isPreparationTimeValid (meal : Meal.t) (day : WeekDay.t) : bool :=
  Meal.PreparationTimeMinutes meal <=? WeekDay.MaxPreparationTime day.

Definition isMealLeftoverValid (day : WeekDay.t) (meal : Meal.t) : bool :=
  negb (String.eqb (WeekDay.Day day) "Sunday")
  || ((0 <? WeekDay.NumberOfPeopleLeftovers day) && Meal.CanBeLeftovers meal).

(** [const dayInWeek = day === 0 ? 7 : day] over [new Date(date).getDay()]. *)
Definition dayInWeek `{JsRuntime} (date : string) : option Z :=
  match Date_getDay date with
  | Some day => Some (if day =? 0 then 7 else day)
  | None => None
  end.

Definition deliveryDayInWeek : Z := 2.

(** The multiplier of [getRequiredProductsForMeal], the same in both revisions. *)
Definition multiplier (day : WeekDay.t) (meal : Meal.t) (isMealLeftoverValid : bool)
  : number :=
  Math_ceil_div
    (if isMealLeftoverValid
     then WeekDay.NumberOfPeople day + WeekDay.NumberOfPeopleLeftovers day
     else Meal.NumberOfPeople meal)
    (Meal.NumberOfPeople meal).

(** ** The strict revision: [matchMeals] *)

Module Strict.
Section WithRuntime.
Context `{JsRuntime}.

Definition getRequiredProductsForMeal (day : WeekDay.t) (meal : Meal.t)
    (products : list Product.t) (isMealLeftoverValid : bool) : list Product.t :=
  map (fun p =>
         Product.withQuantity p
           (number_mul (Product.Quantity p) (multiplier day meal isMealLeftoverValid)))
      (List.filter (ownedBy meal) products).

Definition isRequiredProductDiscountsValid (productsRequired : list Product.t)
    (bonusProductIds : list string) : bool :=
  existsb (fun p => Product.IsBonusRequired p
                    && negb (includes bonusProductIds (Product.ID p)))
          productsRequired.

(** [p.MaxShelfLifeInDays >= dayInWeek - deliveryDayInWeek]; a comparison
    with [undefined] or [NaN] is false. *)
Definition isProductShelfLifeValid (productsRequired : list Product.t)
    (date : string) : bool :=
  forallb (fun p =>
             match Product.MaxShelfLifeInDays p, dayInWeek date with
             | Some s, Some d => s >=? d - deliveryDayInWeek
             | _, _ => false
             end)
          productsRequired.

Definition keep (bonusProductIds : list string) (products : list Product.t)
    (day : WeekDay.t) (meal : Meal.t) : bool :=
  let productsRequired :=
    getRequiredProductsForMeal day meal products (isMealLeftoverValid day meal) in
  isPreparationTimeValid meal day
  && isMealLeftoverValid day meal
  && isRequiredProductDiscountsValid productsRequired bonusProductIds
  && isProductShelfLifeValid productsRequired (WeekDay.Date day).

Definition score (bonusProductIds : list string) (products : list Product.t)
    (day : WeekDay.t) (meal : Meal.t) : Meal.t * Z :=
  let productsRequired :=
    getRequiredProductsForMeal day meal products (isMealLeftoverValid day meal) in
  let productsDiscounted :=
    List.filter (fun p => includes bonusProductIds (Product.ID p)) productsRequired in
  (meal, Z.of_nat (length productsDiscounted)).

Definition matches (meals : list Meal.t) (bonusProductIds : list string)
    (products : list Product.t) (day : WeekDay.t) : list (Meal.t * Z) :=
  js_sort (fun a b => snd b - snd a)
    (map (score bonusProductIds products day)
       (List.filter (keep bonusProductIds products day) meals)).

Definition matchMeals (meals : list Meal.t) (bonusProductIds : list string)
    (products : list Product.t) (weekPlan : list WeekDay.t) : list (option Meal.t) :=
  map (fun day =>
         match matches meals bonusProductIds products day with
         | top :: _ => Some (fst top)
         | [] => None
         end)
      weekPlan.
End WithRuntime.
End Strict.

(** ** Strings built by the rich revision *)

(** [`${q}`] for a [number]: decimal digits for an integer (JavaScript
    switches to exponent notation from 10^21 on). *)
Definition number_toString (q : number) : string :=
  match q with
  | Num z => NilZero.string_of_int (Z.to_int z)
  | NaN => "NaN"
  | Infinity false => "Infinity"
  | Infinity true => "-Infinity"
  end.

(** [URLSearchParams] serialises names and values as
    application/x-www-form-urlencoded: letters, digits and [*-._] stay, a
    space becomes [+], every other byte becomes [%XX] in upper-case hex. *)
Definition urlencoded_keeps (c : ascii) : bool :=
  let n := N_of_ascii c in
  ((48 <=? n) && (n <=? 57) || (65 <=? n) && (n <=? 90) || (97 <=? n) && (n <=? 122)
   || (n =? 42) || (n =? 45) || (n =? 46) || (n =? 95))%N.

Definition hex_digit (n : N) : ascii :=
  if (n <? 10)%N then ascii_of_N (48 + n) else ascii_of_N (55 + n).

Fixpoint urlencode (s : string) : string :=
  match s with
  | EmptyString => EmptyString
  | String c s' =>
      if urlencoded_keeps c then String c (urlencode s')
      else if Ascii.eqb c " " then String "+" (urlencode s')
      else String "%" (String (hex_digit (N_of_ascii c / 16))
                         (String (hex_digit (N_of_ascii c mod 16)) (urlencode s')))
  end.

(** The query string of a list of name/value entries: [n1=v1&n2=v2...]. *)
Fixpoint serialize_params (entries : list (string * string)) : string :=
  match entries with
  | [] => EmptyString
  | [(n, v)] => urlencode n +:+ "=" +:+ urlencode v
  | (n, v) :: rest => urlencode n +:+ "=" +:+ urlencode v +:+ "&" +:+ serialize_params rest
  end.

(** [url.toString()] of a URL without query or fragment after its search
    parameters were set to [entries]. *)
Definition URL_toString (base : string) (entries : list (string * string)) : string :=
  match entries with
  | [] => base
  | _ => base +:+ "?" +:+ serialize_params entries
  end.

(** ** The rich revision: [rankMeals] *)

Module Rich.

(** [{ ...meal, productsRequired, productsDiscounted, shoppingList }] *)
Record RankedMeal := {
  meal : Meal.t;
  productsRequired : list Product.t;
  productsDiscounted : list string;
  shoppingList : string
}.

Definition Slug (m : RankedMeal) : string := Meal.Slug (meal m).

Record Match := { matched : RankedMeal; score : Z }.

(** [Record<string, Meal | null>]: the own properties of the object, a
    finite map from day names to entries; [None] is [null]. *)
Abbreviation Plan := (gmap string (option RankedMeal)).

(** [plan[key] = entry], on the own properties of [plan].  The object
    starts with [Object.prototype] as its prototype and inherits the
    [__proto__] setter from it ([setter] is true): an assignment to
    [__proto__] then sets the prototype of the object and creates no
    property, so [Object.values] never shows it.  Every other assignment, and
    the one to [__proto__] once the setter is out of reach, creates or
    overwrites an own property. *)
Definition assign (setter : bool) (plan : Plan) (key : string)
    (entry : option RankedMeal) : Plan :=
  if setter && String.eqb key "__proto__" then plan else <[key := entry]> plan.

(** The setter stays in reach when the new prototype is a meal, an object
    literal whose prototype is [Object.prototype]; it is lost when the
    prototype becomes [null]. *)
Definition inherits (setter : bool) (key : string) (entry : option RankedMeal) : bool :=
  setter && negb (String.eqb key "__proto__"
                  && match entry with None => true | Some _ => false end).

(** The loop of [rankMeals] threads the plan: its own properties and
    whether it still inherits the [__proto__] setter.  The count of calls
    made to [Math.random()] is threaded with it. *)
Record RankState := { plan : Plan; setter : bool; randomCalls : nat }.

(** [plan[key] = entry] on the state, after [calls] calls of
    [Math.random()]. *)
Definition commit (st : RankState) (key : string) (entry : option RankedMeal)
    (calls : nat) : RankState :=
  {| plan := assign (setter st) (plan st) key entry;
     setter := inherits (setter st) key entry;
     randomCalls := calls |}.

Definition getRequiredProductsForMeal (day : WeekDay.t) (meal : Meal.t)
    (ingredients : list Product.t) (isMealLeftoverValid : bool) : list Product.t :=
  map (fun p =>
         Product.withQuantity p
           (number_mul (Product.Quantity p) (multiplier day meal isMealLeftoverValid)))
      ingredients.

Definition isRequiredProductDiscountsValid (ingredients : list Product.t)
    (bonusProductIds : list string) : bool :=
  let ingredientsRequiringBonus := List.filter Product.IsBonusRequired ingredients in
  forallb (fun p => includes bonusProductIds (Product.ID p)) ingredientsRequiringBonus.

Definition hasIngredients (productsRequired : list Product.t) : bool :=
  (0 <? length productsRequired)%nat.

Definition Object_values (plan : Plan) : list (option RankedMeal) :=
  map snd (map_to_list plan).

Definition isNotInPlan (meal : Meal.t) (plan : Plan) : bool :=
  let meals :=
    List.filter (fun p => match p with Some _ => true | None => false end)
                (Object_values plan) in
  negb (existsb (fun m => match m with
                          | Some m => String.eqb (Slug m) (Meal.Slug meal)
                          | None => false
                          end) meals).

Definition createShoppingList (productsRequired : list Product.t) : string :=
  URL_toString "https://www.ah.nl/mijnlijst/add-multiple"
    (map (fun p => ("p", Product.ID p +:+ ":" +:+ number_toString (Product.Quantity p)))
         productsRequired).

Section WithRuntime.
Context `{JsRuntime}.

(** [!p.MaxShelfLifeInDays || Number(p.MaxShelfLifeInDays) >= dayInWeek - deliveryDayInWeek] *)
Definition isProductShelfLifeValid (productsRequired : list Product.t)
    (date : string) : bool :=
  forallb (fun p =>
             match Product.MaxShelfLifeInDays p with
             | None => true
             | Some s =>
                 (s =? 0)
                 || match dayInWeek date with
                    | Some d => s >=? d - deliveryDayInWeek
                    | None => false
                    end
             end)
          productsRequired.

Definition pairWithIngredients (products : list Product.t) (meal : Meal.t)
  : Meal.t * list Product.t :=
  (meal, List.filter (ownedBy meal) products).

Definition keep (bonusProductIds : list string) (plan : Plan) (day : WeekDay.t)
    (c : Meal.t * list Product.t) : bool :=
  let '(meal, ingredients) := c in
  let productsRequired :=
    getRequiredProductsForMeal day meal ingredients (isMealLeftoverValid day meal) in
  hasIngredients ingredients
  && isNotInPlan meal plan
  && isPreparationTimeValid meal day
  && isMealLeftoverValid day meal
  && isRequiredProductDiscountsValid productsRequired bonusProductIds
  && isProductShelfLifeValid productsRequired (WeekDay.Date day).

Definition scoreMeal (bonusProductIds : list string) (day : WeekDay.t)
    (c : Meal.t * list Product.t) : Match :=
  let '(meal, ingredients) := c in
  let productsRequired :=
    getRequiredProductsForMeal day meal ingredients (isMealLeftoverValid day meal) in
  let productsDiscounted :=
    List.filter (fun p => includes bonusProductIds (Product.ID p)) productsRequired in
  {| matched := {| meal := meal;
                   productsRequired := productsRequired;
                   productsDiscounted := map Product.URL productsDiscounted;
                   shoppingList := createShoppingList productsRequired |};
     score := Z.of_nat (length productsDiscounted) |}.

(** The [matches] array of one iteration of the loop. *)
Definition matches (meals : list Meal.t) (bonusProductIds : list string)
    (products : list Product.t) (plan : Plan) (day : WeekDay.t) : list Match :=
  js_sort (fun a b => score b - score a)
    (map (scoreMeal bonusProductIds day)
       (List.filter (keep bonusProductIds plan day)
          (js_sort (fun a b => Meal.PreparationTimeMinutes (fst b)
                               - Meal.PreparationTimeMinutes (fst a))
             (map (pairWithIngredients products) meals)))).

(** [Math.floor(Math.random() * n)], on the [k]-th call of [Math.random]. *)
Definition randIndex (k : nat) (n : nat) : Z :=
  Math_floor_times (Math_random k) n.

(** One iteration of [for (const day of weekPlan)].  [None] is the
    [TypeError] of reading [.meal] of [undefined]. *)
Definition rankDay (meals : list Meal.t) (bonusProductIds : list string)
    (products : list Product.t) (st : RankState) (day : WeekDay.t)
  : option RankState :=
  let ms := matches meals bonusProductIds products (plan st) day in
  match ms with
  | [] => Some (commit st (WeekDay.Day day) None (randomCalls st))
  | top :: _ =>
      if negb (score top =? 0) then
        Some (commit st (WeekDay.Day day) (Some (matched top)) (randomCalls st))
      else
        let i := randIndex (randomCalls st) (length ms) in
        match (if i <? 0 then None else nth_error ms (Z.to_nat i)) with
        | Some m => Some (commit st (WeekDay.Day day) (Some (matched m))
                            (S (randomCalls st)))
        | None => None
        end
  end.

Fixpoint rankLoop (meals : list Meal.t) (bonusProductIds : list string)
    (products : list Product.t) (weekPlan : list WeekDay.t) (st : RankState)
  : option RankState :=
  match weekPlan with
  | [] => Some st
  | day :: rest =>
      match rankDay meals bonusProductIds products st day with
      | Some st' => rankLoop meals bonusProductIds products rest st'
      | None => None
      end
  end.

Definition rankMeals (meals : list Meal.t) (bonusProductIds : list string)
    (products : list Product.t) (weekPlan : list WeekDay.t) : option Plan :=
  match rankLoop meals bonusProductIds products weekPlan
          {| plan := ∅; setter := true; randomCalls := 0 |} with
  | Some st => Some (plan st)
  | None => None
  end.
End WithRuntime.
End Rich.

(** ** Arrays and objects in the store

  Where a property is about what a function mutates, arrays and objects are
  references into a store.  An address is the allocation index. *)

Module Store.
Record t := {
  objects : list Product.t;
  arrays : list (list nat)
}.

Definition newObject (p : Product.t) (h : t) : nat * t :=
  (length (objects h), {| objects := objects h ++ [p]; arrays := arrays h |}).

Definition newArray (a : list nat) (h : t) : nat * t :=
  (length (arrays h), {| objects := objects h; arrays := arrays h ++ [a] |}).

(** The products an array of the store holds, in order. *)
Fixpoint readObjects (h : t) (refs : list nat) : option (list Product.t) :=
  match refs with
  | [] => Some []
  | r :: refs' =>
      match nth_error (objects h) r, readObjects h refs' with
      | Some p, Some ps => Some (p :: ps)
      | _, _ => None
      end
  end.

Definition readArray (h : t) (a : nat) : option (list Product.t) :=
  match nth_error (arrays h) a with
  | Some refs => readObjects h refs
  | None => None
  end.

(** [refs.filter(f)]: a new array of the same objects. *)
Fixpoint filterRefs (f : Product.t -> bool) (h : t) (refs : list nat)
  : option (list nat) :=
  match refs with
  | [] => Some []
  | r :: refs' =>
      match nth_error (objects h) r, filterRefs f h refs' with
      | Some p, Some out => Some (if f p then r :: out else out)
      | _, _ => None
      end
  end.

(** [refs.map((p) => ({ ...p, Quantity: p.Quantity * multiplier }))]: one new
    object per element. *)
Fixpoint scaleRefs (k : number) (refs : list nat) (h : t) : option (list nat * t) :=
  match refs with
  | [] => Some ([], h)
  | r :: refs' =>
      match nth_error (objects h) r with
      | Some p =>
          let '(r', h1) :=
            newObject (Product.withQuantity p (number_mul (Product.Quantity p) k)) h in
          match scaleRefs k refs' h1 with
          | Some (out, h2) => Some (r' :: out, h2)
          | None => None
          end
      | None => None
      end
  end.

(** [Rich.getRequiredProductsForMeal] on an array of the store: the
    address of the array it returns and the store it leaves. *)
Definition getRequiredProductsForMeal (day : WeekDay.t) (meal : Meal.t)
    (ingredients : nat) (isMealLeftoverValid : bool) (h : t) : option (nat * t) :=
  match nth_error (arrays h) ingredients with
  | Some refs =>
      match scaleRefs (multiplier day meal isMealLeftoverValid) refs h with
      | Some (out, h') => Some (newArray out h')
      | None => None
      end
  | None => None
  end.

(** [Strict.getRequiredProductsForMeal] on an array of the store:
    [products.filter(...)] allocates an array, [.map(...)] another one. *)
Definition getRequiredProductsForMeal_strict (day : WeekDay.t) (meal : Meal.t)
    (products : nat) (isMealLeftoverValid : bool) (h : t) : option (nat * t) :=
  match nth_error (arrays h) products with
  | Some refs =>
      match filterRefs (ownedBy meal) h refs with
      | Some own =>
          let '(_, h0) := newArray own h in
          match scaleRefs (multiplier day meal isMealLeftoverValid) own h0 with
          | Some (out, h') => Some (newArray out h')
          | None => None
          end
      | None => None
      end
  | None => None
  end.

(** [h'] holds everything [h] holds, at the same addresses, unchanged. *)
Definition preserved (h h' : t) : Prop :=
  (forall r p, nth_error (objects h) r = Some p -> nth_error (objects h') r = Some p)
  /\ (forall a refs, nth_error (arrays h) a = Some refs -> nth_error (arrays h') a = Some refs).

(** Arrays of week days: [week.sort] permutes the array in place. *)
Abbreviation weeks := (list (list WeekDay.t)).

Definition sortWeekByPreparationTime (week : nat) (s : weeks) : nat * weeks :=
  let s' :=
    match s !! week with
    | Some days =>
        <[week := js_sort (fun a b => WeekDay.MaxPreparationTime a
                                      - WeekDay.MaxPreparationTime b) days]> s
    | None => s
    end in
  (week, s').

(** [main] of the rich entry point: the week is sorted, then ranked. *)
Definition main `{JsRuntime} (meals : list Meal.t) (bonusProductIds : list string)
    (products : list Product.t) (Week : nat) (s : weeks)
  : option (gmap string (option Rich.RankedMeal)) :=
  let '(week, s') := sortWeekByPreparationTime Week s in
  match s' !! week with
  | Some days => Rich.rankMeals meals bonusProductIds products days
  | None => None
  end.

(** [main] of [index.ts]: the week is sorted, then matched. *)
Definition main_match `{JsRuntime} (meals : list Meal.t) (bonusProductIds : list string)
    (products : list Product.t) (Week : nat) (s : weeks)
  : option (list (option Meal.t)) :=
  let '(week, s') := sortWeekByPreparationTime Week s in
  match s' !! week with
  | Some days => Some (Strict.matchMeals meals bonusProductIds products days)
  | None => None
  end.
End Store.

(** ** A concrete runtime, for the examples

  Dates are [YYYY-MM-DD] strings read in UTC; [Math.random()] returns
  0, 1/4, 1/2, 3/4, 0, ... *)

Definition digit (c : ascii) : option Z :=
  let n := Z.of_N (N_of_ascii c) in
  if (48 <=? n) && (n <=? 57) then Some (n - 48) else None.

Fixpoint digits (acc : Z) (s : list ascii) : option Z :=
  match s with
  | [] => Some acc
  | c :: s' => match digit c with
               | Some d => digits (10 * acc + d) s'
               | None => None
               end
  end.

(** Days since 1970-01-01 of a proleptic Gregorian date. *)
Definition days_from_civil (y m d : Z) : Z :=
  let y' := if m <=? 2 then y - 1 else y in
  let era := y' / 400 in
  let yoe := y' - era * 400 in
  let mp := (m + 9) mod 12 in
  let doy := (153 * mp + 2) / 5 + d - 1 in
  let doe := yoe * 365 + yoe / 4 - yoe / 100 + doy in
  era * 146097 + doe - 719468.

Definition utc_getDay (date : string) : option Z :=
  match list_ascii_of_string date with
  | [y1; y2; y3; y4; "-"%char; m1; m2; "-"%char; d1; d2] =>
      match digits 0 [y1; y2; y3; y4], digits 0 [m1; m2], digits 0 [d1; d2] with
      | Some y, Some m, Some d =>
          if (1 <=? m) && (m <=? 12) && (1 <=? d) && (d <=? 31)
          then Some ((days_from_civil y m d + 4) mod 7)
          else None
      | _, _, _ => None
      end
  | _ => None
  end.

Definition quarters (k : nat) : Q := (Z.of_nat k mod 4) # 4.

(** The floor of the exact product; a quarter times the length of an array
    is exact in doubles too. *)
Definition exact_floor_times (x : Q) (n : nat) : Z :=
  Qfloor (x * inject_Z (Z.of_nat n)).

(** The floor of the exact product of a number of [0, 1) and a length is an
    index. *)
Ltac exact_floor_range H0 H1 :=
  match goal with
  | |- 0 <= exact_floor_times ?r ?n < Z.of_nat ?n =>
      unfold exact_floor_times;
      assert (0 < inject_Z (Z.of_nat n))%Q
        by (change 0%Q with (inject_Z 0); rewrite <- Zlt_Qlt; lia);
      split;
      [ change 0 with (Qfloor 0); apply Qfloor_resp_le;
        apply Qmult_le_0_compat; [exact H0 | now apply Qlt_le_weak]
      | rewrite Zlt_Qlt; eapply Qle_lt_trans; [apply Qfloor_le|];
        rewrite <- (Qmult_1_l (inject_Z (Z.of_nat n))) at 2;
        now apply Qmult_lt_compat_r ]
  end.

#[local] Instance utcRuntime : JsRuntime.
Proof.
  assert (Hrange : forall k, (0 <= quarters k)%Q /\ (quarters k < 1)%Q).
  { intros k. unfold quarters, Qle, Qlt; simpl.
    pose proof (Z.mod_pos_bound (Z.of_nat k) 4 ltac:(lia)). lia. }
  refine {| Date_getDay := utc_getDay;
            Math_random := quarters;
            Math_random_range := Hrange;
            Math_floor_times := exact_floor_times;
            Math_floor_times_range := _ |}.
  intros k n Hn. destruct (Hrange k) as [H0 H1]. exact_floor_range H0 H1.
Defined.

(** [p] with its quantity multiplied by the integer [k]. *)
Definition scaled (k : Z) (p : Product.t) : Product.t :=
  Product.withQuantity p (number_mul (Product.Quantity p) (Num k)).

(** ** Reading a URL back

    How a receiver reads the search parameters of a URL (the parser of
    [URLSearchParams]): the query is what follows the first [?]; it is split
    at every [&], empty pieces are skipped, each piece is split at its first
    [=], and name and value are decoded ([+] is a space, [%XX] a byte). *)

Fixpoint avoids (sep : ascii) (s : string) : bool :=
  match s with
  | EmptyString => true
  | String c s' => negb (Ascii.eqb c sep) && avoids sep s'
  end.

Fixpoint split_on (sep : ascii) (s : string) : list string :=
  match s with
  | EmptyString => [EmptyString]
  | String c s' =>
      if Ascii.eqb c sep then EmptyString :: split_on sep s'
      else match split_on sep s' with
           | piece :: pieces => String c piece :: pieces
           | [] => [String c EmptyString]
           end
  end.

Fixpoint break_at (sep : ascii) (s : string) : string * string :=
  match s with
  | EmptyString => (EmptyString, EmptyString)
  | String c s' =>
      if Ascii.eqb c sep then (EmptyString, s')
      else let '(before, after) := break_at sep s' in (String c before, after)
  end.

Definition hex_value (c : ascii) : option N :=
  let n := N_of_ascii c in
  if ((48 <=? n) && (n <=? 57))%N then Some (n - 48)%N
  else if ((65 <=? n) && (n <=? 70))%N then Some (n - 55)%N
  else if ((97 <=? n) && (n <=? 102))%N then Some (n - 87)%N
  else None.

Fixpoint urldecode (s : string) : string :=
  match s with
  | EmptyString => EmptyString
  | String c s' =>
      if Ascii.eqb c "+" then String " " (urldecode s')
      else if Ascii.eqb c "%" then
        match s' with
        | String h (String l s'') =>
            match hex_value h, hex_value l with
            | Some a, Some b => String (ascii_of_N (16 * a + b)) (urldecode s'')
            | _, _ => String c (urldecode s')
            end
        | _ => String c (urldecode s')
        end
      else String c (urldecode s')
  end.

Definition parse_query (query : string) : list (string * string) :=
  map (fun piece => let '(n, v) := break_at "=" piece in (urldecode n, urldecode v))
      (List.filter (fun piece => negb (String.eqb piece EmptyString))
                   (split_on "&" query)).

Definition searchParams (url : string) : list (string * string) :=
  parse_query (snd (break_at "?" url)).

(** Two products that agree on every field other than [Quantity]. *)
Definition sameButQuantity (p p' : Product.t) : Prop :=
  Product.Meal p' = Product.Meal p
  /\ Product.MaxShelfLifeInDays p' = Product.MaxShelfLifeInDays p
  /\ Product.IsBonusRequired p' = Product.IsBonusRequired p
  /\ Product.ID p' = Product.ID p
  /\ Product.URL p' = Product.URL p.

(** One [name=value] piece of a query. *)
Definition piece (entry : string * string) : string :=
  urlencode (fst entry) +:+ String "=" (urlencode (snd entry)).

(** The search parameter [createShoppingList] appends for a product. *)
Definition shoppingEntry (p : Product.t) : string * string :=
  ("p", Product.ID p +:+ ":" +:+ number_toString (Product.Quantity p)).

(** ** The invariant of the plan *)

(** No slug is held by the non-null entries of two different days. *)
Definition SlugsUnique (plan : gmap string (option Rich.RankedMeal)) : Prop :=
  forall d1 d2 m1 m2,
    plan !! d1 = Some (Some m1) -> plan !! d2 = Some (Some m2) ->
    Rich.Slug m1 = Rich.Slug m2 -> d1 = d2.

(** The state [rankMeals] starts its loop from. *)
Definition initial : Rich.RankState :=
  {| Rich.plan := ∅; Rich.setter := true; Rich.randomCalls := 0 |}.

(** ** Example data *)

Module Ex.
Definition pasta : Meal.t :=
  {| Meal.Slug := "pasta"; Meal.Meal := "Pasta"; Meal.PreparationTimeMinutes := 15;
     Meal.CanBeLeftovers := true; Meal.NumberOfPeople := 2 |}.

Definition curry : Meal.t :=
  {| Meal.Slug := "curry"; Meal.Meal := "Curry"; Meal.PreparationTimeMinutes := 40;
     Meal.CanBeLeftovers := false; Meal.NumberOfPeople := 2 |}.

(** An ingredient of [pasta] that must be discounted. *)
Definition tomatoes : Product.t :=
  {| Product.Meal := "pasta"; Product.Quantity := Num 3;
     Product.MaxShelfLifeInDays := Some 7; Product.IsBonusRequired := true;
     Product.ID := "1525"; Product.URL := "https://www.ah.nl/producten/product/wi1525" |}.

(** An ingredient of [pasta] without constraints. *)
Definition spaghetti : Product.t :=
  {| Product.Meal := "pasta"; Product.Quantity := Num 1;
     Product.MaxShelfLifeInDays := Some 0; Product.IsBonusRequired := false;
     Product.ID := "4177"; Product.URL := "https://www.ah.nl/producten/product/wi4177" |}.

(** An ingredient of [curry] without constraints. *)
Definition rice : Product.t :=
  {| Product.Meal := "curry"; Product.Quantity := Num 2;
     Product.MaxShelfLifeInDays := None; Product.IsBonusRequired := false;
     Product.ID := "3810"; Product.URL := "https://www.ah.nl/producten/product/wi3810" |}.

Definition monday : WeekDay.t :=
  {| WeekDay.Day := "Monday"; WeekDay.Date := "2024-01-01"; WeekDay.NumberOfPeople := 4;
     WeekDay.NumberOfPeopleLeftovers := 0; WeekDay.MaxPreparationTime := 45 |}.

Definition thursday : WeekDay.t :=
  {| WeekDay.Day := "Thursday"; WeekDay.Date := "2024-01-04"; WeekDay.NumberOfPeople := 2;
     WeekDay.NumberOfPeopleLeftovers := 0; WeekDay.MaxPreparationTime := 20 |}.

Definition sunday : WeekDay.t :=
  {| WeekDay.Day := "Sunday"; WeekDay.Date := "2024-01-07"; WeekDay.NumberOfPeople := 3;
     WeekDay.NumberOfPeopleLeftovers := 2; WeekDay.MaxPreparationTime := 60 |}.
End Ex.

(** ** The product identifier of a link: [extractBonusGroups]

    [href.match(/\/wi(\d+)(?:\/|$)/)], then [match ? match[1] : ""]. *)

Definition isDigit (c : ascii) : bool :=
  let n := N_of_ascii c in ((48 <=? n) && (n <=? 57))%N.

Fixpoint allDigits (s : string) : bool :=
  match s with
  | EmptyString => true
  | String c s' => isDigit c && allDigits s'
  end.

(** The longest run of digits at the start of [s], and what follows it. *)
Fixpoint takeDigits (s : string) : string * string :=
  match s with
  | EmptyString => (EmptyString, EmptyString)
  | String c s' =>
      if isDigit c then let '(ds, after) := takeDigits s' in (String c ds, after)
      else (EmptyString, s)
  end.

(** The pattern tried at the start of [s].  [\d+] is greedy and what
    follows it must be [/] or the end, so only the longest run of digits can
    match: after a shorter one the next character is a digit. *)
Definition matchAt (s : string) : option string :=
  match s with
  | String "/" (String "w" (String "i" rest)) =>
      match takeDigits rest with
      | (EmptyString, _) => None
      | (ds, EmptyString) => Some ds
      | (ds, String "/" _) => Some ds
      | (_, _) => None
      end
  | _ => None
  end.

(** The first capture of the leftmost match, or [""] without a match. *)
Fixpoint productIdOf (href : string) : string :=
  match matchAt href with
  | Some id => id
  | None =>
      match href with
      | EmptyString => EmptyString
      | String _ rest => productIdOf rest
      end
  end.

(** ** Reading the sheet: [CSV2JSON] *)

Module Sheet.

(** What a field of a row object can hold: a boolean, a string, or a
    member of [Object.prototype] that the lookup [boolMap[cell]] inherits. *)
Inductive value :=
| VBool (b : bool)
| VString (s : string)
| VInherited (name : string).

Definition Object_prototype : list string :=
  ["constructor"; "__defineGetter__"; "__defineSetter__"; "hasOwnProperty";
   "__lookupGetter__"; "__lookupSetter__"; "isPrototypeOf"; "propertyIsEnumerable";
   "toString"; "valueOf"; "__proto__"; "toLocaleString"].

(** [boolMap[cell]]; [None] is [undefined]. *)
Definition boolMap (cell : string) : option value :=
  if String.eqb cell "TRUE" then Some (VBool true)
  else if String.eqb cell "FALSE" then Some (VBool false)
  else if includes Object_prototype cell then Some (VInherited cell)
  else None.

(** [row[i] ? boolMap[row[i]] ?? row[i] : ""] *)
Definition cell (row : list string) (i : nat) : value :=
  match nth_error row i with
  | Some c =>
      if String.eqb c "" then VString ""
      else match boolMap c with
           | Some v => v
           | None => VString c
           end
  | None => VString ""
  end.

(** [obj[header] = v] on the own properties of [obj]: assigning to
    [__proto__] creates no property.  The map records the own properties
    only: with a header [__proto__] whose cell names a member of
    [Object.prototype] the assignment also replaces the prototype of the row
    object, and what that does to the columns after it is not recorded. *)
Definition setProperty (obj : gmap string value) (header : string) (v : value)
  : gmap string value :=
  if String.eqb header "__proto__" then obj else <[header := v]> obj.

(** [headers.reduce((obj, header, i) => { obj[header] = ...; return obj; }, {})],
    from column [i] on. *)
Fixpoint rowObject (i : nat) (headers : list string) (row : list string)
    (obj : gmap string value) : gmap string value :=
  match headers with
  | [] => obj
  | header :: rest => rowObject (S i) rest row (setProperty obj header (cell row i))
  end.

Definition CSV2JSON (rows : list (list string)) : list (gmap string value) :=
  if (length rows <? 2)%nat then []
  else match rows with
       | headers :: data => map (fun row => rowObject 0 headers row ∅) data
       | [] => []
       end.
End Sheet.

(** ** Names for the stages of a day of [rankMeals] *)

(** The meals with their ingredients, after [.sort] by preparation time. *)
Definition candidates (meals : list Meal.t) (products : list Product.t)
  : list (Meal.t * list Product.t) :=
  js_sort (fun a b => Meal.PreparationTimeMinutes (fst b)
                      - Meal.PreparationTimeMinutes (fst a))
    (map (Rich.pairWithIngredients products) meals).

(** The scored survivors of the filter, before [.sort] by score. *)
Definition survivors `{JsRuntime} (meals : list Meal.t) (bonusProductIds : list string)
    (products : list Product.t) (plan : gmap string (option Rich.RankedMeal))
    (day : WeekDay.t) : list Rich.Match :=
  map (Rich.scoreMeal bonusProductIds day)
    (List.filter (Rich.keep bonusProductIds plan day) (candidates meals products)).

(** What the filter of [rankMeals] asks of a meal for a day. *)
Definition feasible `{JsRuntime} (meals : list Meal.t) (bonusProductIds : list string)
    (day : WeekDay.t) (m : Rich.RankedMeal) : Prop :=
  In (Rich.meal m) meals
  /\ Rich.productsRequired m <> []
  /\ Meal.PreparationTimeMinutes (Rich.meal m) <= WeekDay.MaxPreparationTime day
  /\ (WeekDay.Day day = "Sunday" ->
      0 < WeekDay.NumberOfPeopleLeftovers day /\ Meal.CanBeLeftovers (Rich.meal m) = true)
  /\ (forall p, In p (Rich.productsRequired m) -> Product.IsBonusRequired p = true ->
                In (Product.ID p) bonusProductIds)
  /\ (forall p, In p (Rich.productsRequired m) ->
        Product.MaxShelfLifeInDays p = None
        \/ Product.MaxShelfLifeInDays p = Some 0
        \/ exists s dn, Product.MaxShelfLifeInDays p = Some s
                        /\ dayInWeek (WeekDay.Date day) = Some dn
                        /\ s >= dn - 2)
  /\ (forall p, In p (Rich.productsRequired m) ->
                Product.Meal p = Meal.Slug (Rich.meal m)).

(** What the scoring step of [rankMeals] attaches to a meal for a day. *)
Definition enriched (bonusProductIds : list string) (products : list Product.t)
    (day : WeekDay.t) (m : Rich.RankedMeal) : Prop :=
  Rich.productsRequired m
  = Rich.getRequiredProductsForMeal day (Rich.meal m)
      (List.filter (ownedBy (Rich.meal m)) products) true
  /\ Rich.productsDiscounted m
     = map Product.URL
         (List.filter (fun p => includes bonusProductIds (Product.ID p))
                      (Rich.productsRequired m))
  /\ Rich.shoppingList m = Rich.createShoppingList (Rich.productsRequired m)
  /\ (0 < Meal.NumberOfPeople (Rich.meal m) ->
      exists k,
        Meal.NumberOfPeople (Rich.meal m) * (k - 1)
        < WeekDay.NumberOfPeople day + WeekDay.NumberOfPeopleLeftovers day
        <= Meal.NumberOfPeople (Rich.meal m) * k
        /\ Rich.productsRequired m
           = map (scaled k) (List.filter (ownedBy (Rich.meal m)) products)).

(** The slugs of the non-null entries of a plan, listed. *)
Definition slugsOf (entries : list (string * option Rich.RankedMeal)) : list string :=
  flat_map (fun kv => match snd kv with
                      | Some m => [Rich.Slug m]
                      | None => []
                      end) entries.

(** ** The selection policy, in the words of the specification *)



(** ** The shopping list, in the words of the specification *)

(** The text [t] is the quantity [q] as a template literal prints it: for an
    integer the decimal numeral without leading zeros, with a minus sign when
    negative; [NaN], [Infinity] or [-Infinity] otherwise. *)
Definition quantityText (q : number) (t : string) : Prop :=
  match q with
  | Num z => NilZero.int_of_string t = Some (Z.to_int z)
  | NaN => t = "NaN"
  | Infinity false => t = "Infinity"
  | Infinity true => t = "-Infinity"
  end.

(** The query of a shopping list whose identifiers are digits: one
    [p=id%3Aquantity] per pair of identifier and quantity text, joined by
    [&]; [%3A] is the colon, percent-encoded. *)
Definition reorderQuery (pairs : list (string * string)) : string :=
  Stdlib.Strings.String.concat "&"
    (map (fun pair => "p=" +:+ fst pair +:+ "%3A" +:+ snd pair) pairs).

(** * Properties *)

(** ** Arithmetic of the multiplier *)

Lemma Qceiling_div (a : Z) (b : positive) :
  Qceiling (inject_Z a / inject_Z (Z.pos b)) = - ((- a) / Z.pos b).
Proof.
  change (inject_Z a / inject_Z (Z.pos b))%Q with ((a * 1) # b).
  unfold Qceiling, Qfloor, Qopp. cbn [Qnum Qden].
  now rewrite Z.mul_1_r.
Qed.

Lemma Math_ceil_div_pos (a b : Z) :
  0 < b -> exists k, Math_ceil_div a b = Num k /\ b * (k - 1) < a <= b * k.
Proof.
  intros Hb. unfold Math_ceil_div.
  destruct (Z.eqb_spec b 0) as [->|_]; [lia|].
  destruct b as [|b|b]; try lia.
  rewrite Qceiling_div. eexists; split; [reflexivity|].
  pose proof (Z.div_mod (- a) (Z.pos b) ltac:(lia)) as Hdm.
  pose proof (Z.mod_pos_bound (- a) (Z.pos b) ltac:(lia)) as Hm.
  nia.
Qed.

Lemma Math_ceil_div_same (b : Z) : 0 < b -> Math_ceil_div b b = Num 1.
Proof.
  intros Hb. destruct (Math_ceil_div_pos b b Hb) as (k & -> & Hk).
  f_equal. nia.
Qed.

Lemma number_mul_1 (q : number) : number_mul q (Num 1) = q.
Proof.
  destruct q as [z| |s]; simpl; try reflexivity.
  - now rewrite Z.mul_1_r.
  - now destruct s.
Qed.

Lemma withQuantity_same (p : Product.t) : Product.withQuantity p (Product.Quantity p) = p.
Proof. now destruct p. Qed.

(** Splits a hypothesis [a && b && ... = true] into its conjuncts. *)
Ltac split_andb H := repeat (apply andb_true_iff in H as [H ?]).

(** ** Membership in the discount list *)

Lemma includes_In (ids : list string) (id : string) :
  includes ids id = true <-> In id ids.
Proof.
  unfold includes. rewrite existsb_exists. split.
  - intros (x & Hx & Heq). apply String.eqb_eq in Heq. now subst.
  - intros Hin. exists id. split; [assumption | apply String.eqb_refl].
Qed.

Lemma includes_nil (id : string) : includes [] id = false.
Proof. reflexivity. Qed.

(** ** The stable sort *)

Section JsSortFacts.
Context {A : Type} (cmp : A -> A -> Z).

Lemma sort_insert_perm (x : A) (l : list A) :
  Permutation (sort_insert cmp x l) (x :: l).
Proof.
  induction l as [|y l IH]; simpl; [reflexivity|].
  destruct (cmp x y <=? 0); [reflexivity|].
  rewrite IH. apply perm_swap.
Qed.

Lemma js_sort_perm (l : list A) : Permutation (js_sort cmp l) l.
Proof.
  induction l as [|x l IH]; simpl; [reflexivity|].
  rewrite sort_insert_perm. now constructor.
Qed.

Lemma js_sort_In (x : A) (l : list A) : In x (js_sort cmp l) <-> In x l.
Proof.
  split; apply Permutation_in; [| symmetry]; apply js_sort_perm.
Qed.

Lemma js_sort_nil_inv (l : list A) : js_sort cmp l = [] -> l = [].
Proof.
  intros Hs. apply Permutation_nil. rewrite <- Hs. apply js_sort_perm.
Qed.

(** The comparators of the code are differences of an integer key, so
    "not after" is a total preorder. *)
Hypothesis cmp_trans : forall a b c, cmp a b <= 0 -> cmp b c <= 0 -> cmp a c <= 0.
Hypothesis cmp_total : forall a b, cmp a b <= 0 \/ cmp b a <= 0.

Lemma sort_insert_sorted (x : A) (l : list A) :
  StronglySorted (fun a b => cmp a b <= 0) l ->
  StronglySorted (fun a b => cmp a b <= 0) (sort_insert cmp x l).
Proof.
  induction 1 as [|y l Hs IH Hy]; simpl.
  - repeat constructor.
  - destruct (Z.leb_spec (cmp x y) 0) as [Hle|Hgt].
    + constructor; [now constructor|].
      constructor; [assumption|].
      eapply List.Forall_impl; [|exact Hy]. intros c Hc. now apply cmp_trans with y.
    + constructor; [assumption|].
      assert (Hyx : cmp y x <= 0) by (destruct (cmp_total x y); lia).
      rewrite List.Forall_forall. intros c Hc.
      apply (Permutation_in _ (sort_insert_perm x l)) in Hc.
      destruct Hc as [<-|Hc]; [assumption|].
      rewrite List.Forall_forall in Hy. now apply Hy.
Qed.

Lemma js_sort_sorted (l : list A) :
  StronglySorted (fun a b => cmp a b <= 0) (js_sort cmp l).
Proof.
  induction l as [|x l IH]; simpl; [constructor | now apply sort_insert_sorted].
Qed.

Lemma js_sort_head (top : A) (rest : list A) (l : list A) :
  js_sort cmp l = top :: rest ->
  In top l /\ forall c, In c l -> cmp top c <= 0.
Proof.
  intros Hs. split.
  - apply js_sort_In. rewrite Hs. now left.
  - intros c Hc. apply js_sort_In in Hc. rewrite Hs in Hc.
    pose proof (js_sort_sorted l) as Hsorted. rewrite Hs in Hsorted.
    inversion Hsorted as [|? ? _ Hall]; subst.
    destruct Hc as [<-|Hc].
    + destruct (cmp_total top top); assumption.
    + rewrite List.Forall_forall in Hall. now apply Hall.
Qed.
End JsSortFacts.

(** ** The quantity resolver *)

(** C4: for a meal calibrated for a positive number of people, the resolver
    multiplies every quantity by the integer [k] that is the ceiling of
    [h / NumberOfPeople], where [h] is the day's head count plus its leftover
    head count when the flag is set and the meal's own [NumberOfPeople]
    otherwise; the strict revision does so on the products owned by the meal.
    Without the flag [k] is 1 and the quantities are unchanged. *)
Theorem getRequiredProductsForMeal_scales
    (d : WeekDay.t) (m : Meal.t) (ingredients : list Product.t) (f : bool) :
  0 < Meal.NumberOfPeople m ->
  exists k : Z,
    let h := if f then WeekDay.NumberOfPeople d + WeekDay.NumberOfPeopleLeftovers d
             else Meal.NumberOfPeople m in
    Meal.NumberOfPeople m * (k - 1) < h <= Meal.NumberOfPeople m * k
    /\ multiplier d m f = Num k
    /\ Rich.getRequiredProductsForMeal d m ingredients f = map (scaled k) ingredients
    /\ Strict.getRequiredProductsForMeal d m ingredients f
       = map (scaled k) (List.filter (ownedBy m) ingredients)
    /\ (forall p q, Product.Quantity p = Num q ->
                    Product.Quantity (scaled k p) = Num (q * k))
    /\ (f = false ->
        k = 1
        /\ Rich.getRequiredProductsForMeal d m ingredients f = ingredients
        /\ Strict.getRequiredProductsForMeal d m ingredients f
           = List.filter (ownedBy m) ingredients).
Proof.
  intros Hn.
  destruct (Math_ceil_div_pos
              (if f then WeekDay.NumberOfPeople d + WeekDay.NumberOfPeopleLeftovers d
               else Meal.NumberOfPeople m)
              (Meal.NumberOfPeople m) Hn) as (k & Hk & Hbounds).
  exists k. cbv zeta.
  assert (Hmul : multiplier d m f = Num k) by exact Hk.
  assert (Hrich : Rich.getRequiredProductsForMeal d m ingredients f
                  = map (scaled k) ingredients).
  { unfold Rich.getRequiredProductsForMeal. now rewrite Hmul. }
  assert (Hstrict : Strict.getRequiredProductsForMeal d m ingredients f
                    = map (scaled k) (List.filter (ownedBy m) ingredients)).
  { unfold Strict.getRequiredProductsForMeal. now rewrite Hmul. }
  assert (Hid : forall l : list Product.t, map (scaled 1) l = l).
  { intros l. rewrite <- (map_id l) at 2. apply map_ext.
    intros p. unfold scaled. rewrite number_mul_1. apply withQuantity_same. }
  split; [exact Hbounds|]. split; [exact Hmul|].
  split; [exact Hrich|]. split; [exact Hstrict|]. split.
  - intros p q Hq. unfold scaled. simpl. now rewrite Hq.
  - intros ->. assert (k = 1) as -> by nia.
    rewrite Hrich, Hstrict, !Hid. auto.
Qed.

Lemma getRequiredProductsForMeal_scales_witness :
  0 < Meal.NumberOfPeople Ex.pasta
  /\ exists k : Z,
       Meal.NumberOfPeople Ex.pasta * (k - 1) < 3 + 2 <= Meal.NumberOfPeople Ex.pasta * k
       /\ Rich.getRequiredProductsForMeal Ex.sunday Ex.pasta [Ex.tomatoes] true
          = map (scaled k) [Ex.tomatoes].
Proof.
  assert (Hpos : 0 < Meal.NumberOfPeople Ex.pasta) by (simpl; lia).
  split; [exact Hpos|].
  destruct (getRequiredProductsForMeal_scales Ex.sunday Ex.pasta [Ex.tomatoes] true Hpos)
    as (k & Hk & _ & Hrich & _).
  exists k. split; [exact Hk | exact Hrich].
Defined.

(** ** The discount requirement *)

Lemma rich_discounts_valid_iff (ingredients : list Product.t) (bonusProductIds : list string) :
  Rich.isRequiredProductDiscountsValid ingredients bonusProductIds = true
  <-> forall p, In p ingredients -> Product.IsBonusRequired p = true ->
                In (Product.ID p) bonusProductIds.
Proof.
  unfold Rich.isRequiredProductDiscountsValid. rewrite forallb_forall. split.
  - intros Hall p Hin Hreq. apply includes_In, Hall, filter_In. now split.
  - intros Hall p Hin. apply filter_In in Hin as [Hin Hreq].
    apply includes_In. now apply Hall.
Qed.

(** C7: the discount predicate of the rich revision holds exactly when
    every ingredient with [IsBonusRequired] has its identifier in the bonus
    list; a list without such ingredients satisfies it for every bonus list. *)
Theorem isRequiredProductDiscountsValid_iff
    (ingredients : list Product.t) (bonusProductIds : list string) :
  (Rich.isRequiredProductDiscountsValid ingredients bonusProductIds = true
   <-> forall p, In p ingredients -> Product.IsBonusRequired p = true ->
                 In (Product.ID p) bonusProductIds)
  /\ ((forall p, In p ingredients -> Product.IsBonusRequired p = false) ->
      Rich.isRequiredProductDiscountsValid ingredients bonusProductIds = true).
Proof.
  split; [apply rich_discounts_valid_iff|].
  intros Hnone. apply rich_discounts_valid_iff. intros p Hin Hreq.
  rewrite (Hnone p Hin) in Hreq. discriminate.
Qed.

Lemma isRequiredProductDiscountsValid_iff_witness :
  (forall p, In p [Ex.spaghetti; Ex.rice] -> Product.IsBonusRequired p = false)
  /\ Rich.isRequiredProductDiscountsValid [Ex.spaghetti; Ex.rice] [] = true.
Proof.
  assert (Hnone : forall p, In p [Ex.spaghetti; Ex.rice] -> Product.IsBonusRequired p = false).
  { intros p [<-|[<-|[]]]; reflexivity. }
  split; [exact Hnone|].
  exact (proj2 (isRequiredProductDiscountsValid_iff [Ex.spaghetti; Ex.rice] []) Hnone).
Defined.

(** ** Shelf life *)

Section ShelfLife.
Context `{JsRuntime}.

(** The ISO weekday number of the code: Sunday is 7, Monday to Saturday
    are 1 to 6. *)
Lemma dayInWeek_iso (date : string) (g : Z) :
  Date_getDay date = Some g ->
  dayInWeek date = Some (if g =? 0 then 7 else g).
Proof. unfold dayInWeek. now intros ->. Qed.

(** The rich revision lets an ingredient without shelf life (absent or zero)
    pass and compares the others with [dayInWeek - 2]. *)
Lemma rich_isProductShelfLifeValid_iff (productsRequired : list Product.t) (date : string) :
  Rich.isProductShelfLifeValid productsRequired date = true
  <-> forall p, In p productsRequired ->
        Product.MaxShelfLifeInDays p = None
        \/ Product.MaxShelfLifeInDays p = Some 0
        \/ exists s d, Product.MaxShelfLifeInDays p = Some s
                       /\ dayInWeek date = Some d
                       /\ s >= d - 2.
Proof.
  unfold Rich.isProductShelfLifeValid, deliveryDayInWeek. rewrite forallb_forall.
  split; intros Hall p Hin; specialize (Hall p Hin).
  - destruct (Product.MaxShelfLifeInDays p) as [s|]; [|now left].
    apply orb_true_iff in Hall as [Hz|Hge].
    + right; left. f_equal. lia.
    + destruct (dayInWeek date) as [d|]; [|discriminate].
      right; right. exists s, d. repeat split. lia.
  - destruct Hall as [->|[->|(s & d & -> & -> & Hge)]]; try reflexivity.
    apply orb_true_iff. right. lia.
Qed.

(** The strict revision has no such exemption: every ingredient needs a
    shelf life that reaches the day. *)
Lemma strict_isProductShelfLifeValid_iff (productsRequired : list Product.t) (date : string) :
  Strict.isProductShelfLifeValid productsRequired date = true
  <-> forall p, In p productsRequired ->
        exists s d, Product.MaxShelfLifeInDays p = Some s
                    /\ dayInWeek date = Some d
                    /\ s >= d - 2.
Proof.
  unfold Strict.isProductShelfLifeValid, deliveryDayInWeek. rewrite forallb_forall.
  split; intros Hall p Hin; specialize (Hall p Hin).
  - destruct (Product.MaxShelfLifeInDays p) as [s|]; [|discriminate].
    destruct (dayInWeek date) as [d|]; [|discriminate].
    exists s, d. repeat split. lia.
  - destruct Hall as (s & d & -> & -> & Hge). lia.
Qed.
End ShelfLife.




(** ** The strict revision's filter *)

Section StrictFilter.
Context `{JsRuntime}.

Lemma strict_matches_In (meals : list Meal.t) (bonusProductIds : list string)
    (products : list Product.t) (day : WeekDay.t) (c : Meal.t * Z) :
  In c (Strict.matches meals bonusProductIds products day) ->
  In (fst c) meals /\ Strict.keep bonusProductIds products day (fst c) = true.
Proof.
  unfold Strict.matches. rewrite js_sort_In, in_map_iff.
  intros (m & <- & Hin). apply filter_In in Hin. exact Hin.
Qed.

(** What the strict filter asks of the discounts: a meal is kept only if one
    of its products is marked [IsBonusRequired] and is missing from the bonus
    list. *)
Lemma strict_matchMeals_committed (meals : list Meal.t) (bonusProductIds : list string)
    (products : list Product.t) (weekPlan : list WeekDay.t) (m : Meal.t) :
  In (Some m) (Strict.matchMeals meals bonusProductIds products weekPlan) ->
  exists p, In p products
            /\ ownedBy m p = true
            /\ Product.IsBonusRequired p = true
            /\ ~ In (Product.ID p) bonusProductIds.
Proof.
  unfold Strict.matchMeals. rewrite in_map_iff. intros (day & Hday & _).
  destruct (Strict.matches meals bonusProductIds products day) as [|top rest] eqn:Hms;
    [discriminate|].
  injection Hday as <-.
  destruct (strict_matches_In meals bonusProductIds products day top) as [_ Hkeep].
  { rewrite Hms. now left. }
  unfold Strict.keep in Hkeep.
  split_andb Hkeep.
  match goal with
  | Hd : Strict.isRequiredProductDiscountsValid _ _ = true |- _ =>
      unfold Strict.isRequiredProductDiscountsValid in Hd;
      apply existsb_exists in Hd as (p' & Hin' & Hp')
  end.
  unfold Strict.getRequiredProductsForMeal in Hin'.
  apply in_map_iff in Hin' as (p & <- & Hin). apply filter_In in Hin as [Hin Hown].
  apply andb_true_iff in Hp' as [Hreq Hmiss]. simpl in Hreq, Hmiss.
  exists p. repeat split; try assumption.
  intros Hbonus. apply includes_In in Hbonus. rewrite Hbonus in Hmiss. discriminate.
Qed.
End StrictFilter.

(** C1: with an empty bonus list, [matchMeals] commits [pasta] for Monday
    although its ingredient [tomatoes] is marked [IsBonusRequired] and is not
    discounted; once [tomatoes] is discounted, [pasta] is dropped. *)
Theorem strict_matchMeals_keeps_undiscounted :
  Product.IsBonusRequired Ex.tomatoes = true
  /\ ownedBy Ex.pasta Ex.tomatoes = true
  /\ Strict.matchMeals [Ex.pasta] [] [Ex.tomatoes] [Ex.monday] = [Some Ex.pasta]
  /\ Strict.matchMeals [Ex.pasta] [Product.ID Ex.tomatoes] [Ex.tomatoes] [Ex.monday]
     = [None].
Proof. repeat split; vm_compute; reflexivity. Qed.

(** ** The rich revision's loop *)

Section RichLoop.
Context `{JsRuntime}.
Variables (meals : list Meal.t) (bonusProductIds : list string) (products : list Product.t).

Lemma randIndex_range (k n : nat) :
  (0 < n)%nat -> 0 <= Rich.randIndex k n < Z.of_nat n.
Proof. apply Math_floor_times_range. Qed.

(** The survivors of a day are the meals that pass the six evaluators, each
    with its score, the number of its discounted products. *)
Lemma rich_matches_In (plan : gmap string (option Rich.RankedMeal)) (day : WeekDay.t)
    (c : Rich.Match) :
  In c (Rich.matches meals bonusProductIds products plan day)
  <-> exists meal, In meal meals
        /\ Rich.keep bonusProductIds plan day (Rich.pairWithIngredients products meal) = true
        /\ c = Rich.scoreMeal bonusProductIds day (Rich.pairWithIngredients products meal).
Proof.
  unfold Rich.matches. rewrite js_sort_In, in_map_iff. split.
  - intros (pr & <- & Hin). apply filter_In in Hin as [Hin Hkeep].
    apply js_sort_In, in_map_iff in Hin as (meal & <- & Hin).
    exists meal. auto.
  - intros (meal & Hin & Hkeep & ->).
    exists (Rich.pairWithIngredients products meal). split; [reflexivity|].
    apply filter_In. split; [|assumption].
    apply js_sort_In, in_map_iff. eauto.
Qed.

Lemma rich_score_nonneg (plan : gmap string (option Rich.RankedMeal)) (day : WeekDay.t)
    (c : Rich.Match) :
  In c (Rich.matches meals bonusProductIds products plan day) -> 0 <= Rich.score c.
Proof.
  intros Hin. apply rich_matches_In in Hin as (meal & _ & _ & ->).
  unfold Rich.scoreMeal, Rich.pairWithIngredients. simpl. lia.
Qed.


(** An assignment changes at most the entry under its key, and it does
    set it when the key is an ordinary property name. *)
Lemma commit_lookup_other (st : Rich.RankState) (key d : string)
    (entry : option Rich.RankedMeal) (calls : nat) :
  key <> d -> Rich.plan (Rich.commit st key entry calls) !! d = Rich.plan st !! d.
Proof.
  intros Hne. unfold Rich.commit, Rich.assign. cbn [Rich.plan].
  destruct (Rich.setter st && String.eqb key "__proto__"); [reflexivity|].
  now apply lookup_insert_ne.
Qed.

Lemma commit_lookup_same (st : Rich.RankState) (key : string)
    (entry : option Rich.RankedMeal) (calls : nat) :
  key <> "__proto__" -> Rich.plan (Rich.commit st key entry calls) !! key = Some entry.
Proof.
  intros Hne. unfold Rich.commit, Rich.assign. cbn [Rich.plan].
  apply String.eqb_neq in Hne. rewrite Hne, andb_false_r.
  apply lookup_insert_eq.
Qed.

Lemma commit_lookup_Some (st : Rich.RankState) (key d : string)
    (entry e : option Rich.RankedMeal) (calls : nat) :
  Rich.plan (Rich.commit st key entry calls) !! d = Some e ->
  (key = d /\ e = entry) \/ Rich.plan st !! d = Some e.
Proof.
  unfold Rich.commit, Rich.assign. cbn [Rich.plan].
  destruct (Rich.setter st && String.eqb key "__proto__"); [now right|].
  intros Hd. apply lookup_insert_Some in Hd as [[-> <-]|[_ Hd]]; [now left | now right].
Qed.

Lemma rankDay_cases (st : Rich.RankState) (day : WeekDay.t) :
  let ms := Rich.matches meals bonusProductIds products (Rich.plan st) day in
  exists e k',
    Rich.rankDay meals bonusProductIds products st day
    = Some (Rich.commit st (WeekDay.Day day) e k')
    /\ ((ms = [] /\ e = None)
        \/ (exists top rest, ms = top :: rest /\ Rich.score top <> 0
                             /\ e = Some (Rich.matched top))
        \/ (exists top rest c, ms = top :: rest /\ Rich.score top = 0
              /\ nth_error ms (Z.to_nat (Rich.randIndex (Rich.randomCalls st) (length ms)))
                 = Some c
              /\ e = Some (Rich.matched c))).
Proof.
  intros ms. unfold Rich.rankDay. fold ms.
  destruct ms as [|top rest] eqn:Hms.
  - exists None, (Rich.randomCalls st). split; [reflexivity | now left].
  - destruct (Z.eqb_spec (Rich.score top) 0) as [Hz|Hnz]; simpl negb; cbv iota.
    + pose proof (randIndex_range (Rich.randomCalls st) (length (top :: rest))
                    ltac:(simpl; lia)) as Hr.
      destruct (Z.ltb_spec (Rich.randIndex (Rich.randomCalls st) (length (top :: rest))) 0)
        as [Hneg|_]; [lia|].
      destruct (nth_error (top :: rest)
                  (Z.to_nat (Rich.randIndex (Rich.randomCalls st) (length (top :: rest)))))
        as [c|] eqn:Hnth.
      * exists (Some (Rich.matched c)), (S (Rich.randomCalls st)).
        split; [reflexivity|]. right; right. exists top, rest, c. auto.
      * apply nth_error_None in Hnth. lia.
    + exists (Some (Rich.matched top)), (Rich.randomCalls st).
      split; [reflexivity|]. right; left. exists top, rest. auto.
Qed.

(** One iteration never throws, and it commits either nothing or one of
    the survivors. *)
Lemma rankDay_commits (st : Rich.RankState) (day : WeekDay.t) :
  exists e k',
    Rich.rankDay meals bonusProductIds products st day
    = Some (Rich.commit st (WeekDay.Day day) e k')
    /\ match e with
       | None => Rich.matches meals bonusProductIds products (Rich.plan st) day = []
       | Some m => exists c,
           In c (Rich.matches meals bonusProductIds products (Rich.plan st) day)
           /\ m = Rich.matched c
       end.
Proof.
  destruct (rankDay_cases st day) as (e & k' & Hrun & Hcases).
  exists e, k'. split; [exact Hrun|].
  destruct Hcases as [[Hms ->]|[(top & rest & Hms & _ & ->)|(top & rest & c & Hms & _ & Hnth & ->)]].
  - exact Hms.
  - exists top. split; [rewrite Hms; now left | reflexivity].
  - exists c. split; [now apply nth_error_In in Hnth | reflexivity].
Qed.

Lemma rankLoop_total (weekPlan : list WeekDay.t) (st : Rich.RankState) :
  exists st', Rich.rankLoop meals bonusProductIds products weekPlan st = Some st'.
Proof.
  revert st. induction weekPlan as [|day rest IH]; intros st; simpl; [eauto|].
  destruct (rankDay_commits st day) as (e & k' & -> & _). apply IH.
Qed.


(** [isNotInPlan] holds when no non-null entry of the plan has the slug. *)
Lemma isNotInPlan_spec (meal : Meal.t) (plan : gmap string (option Rich.RankedMeal)) :
  Rich.isNotInPlan meal plan = true
  <-> forall d m, plan !! d = Some (Some m) -> Rich.Slug m <> Meal.Slug meal.
Proof.
  unfold Rich.isNotInPlan, Rich.Object_values.
  rewrite negb_true_iff, <- not_true_iff_false, existsb_exists. split.
  - intros Hnone d m Hd Heq. apply Hnone. exists (Some m). split.
    + apply filter_In. split; [|reflexivity].
      apply in_map_iff. exists (d, Some m). split; [reflexivity|].
      apply list_elem_of_In, elem_of_map_to_list. exact Hd.
    + now apply String.eqb_eq.
  - intros Hall (e & Hin & He). apply filter_In in Hin as [Hin _].
    destruct e as [m|]; [|discriminate].
    apply in_map_iff in Hin as ([d e] & Heq & Hin). simpl in Heq. subst e.
    apply list_elem_of_In, elem_of_map_to_list in Hin.
    apply String.eqb_eq in He. exact (Hall d m Hin He).
Qed.

(** Every survivor of a day has a slug that the plan does not hold yet. *)
Lemma rich_matches_fresh (plan : gmap string (option Rich.RankedMeal)) (day : WeekDay.t)
    (c : Rich.Match) :
  In c (Rich.matches meals bonusProductIds products plan day) ->
  forall d m, plan !! d = Some (Some m) -> Rich.Slug m <> Rich.Slug (Rich.matched c).
Proof.
  intros Hin. apply rich_matches_In in Hin as (meal & _ & Hkeep & ->).
  unfold Rich.keep, Rich.pairWithIngredients in Hkeep. cbv beta iota zeta in Hkeep.
  split_andb Hkeep.
  match goal with
  | Hn : Rich.isNotInPlan _ _ = true |- _ =>
      intros d m Hd; exact (proj1 (isNotInPlan_spec meal plan) Hn d m Hd)
  end.
Qed.

Lemma SlugsUnique_insert_null (plan : gmap string (option Rich.RankedMeal)) (d : string) :
  SlugsUnique plan -> SlugsUnique (<[d := None]> plan).
Proof.
  intros Huniq d1 d2 m1 m2 H1 H2 Heq.
  apply lookup_insert_Some in H1 as [[_ ?]|[_ H1]]; [discriminate|].
  apply lookup_insert_Some in H2 as [[_ ?]|[_ H2]]; [discriminate|].
  exact (Huniq _ _ _ _ H1 H2 Heq).
Qed.

Lemma SlugsUnique_insert_fresh (plan : gmap string (option Rich.RankedMeal)) (d : string)
    (m : Rich.RankedMeal) :
  SlugsUnique plan ->
  (forall d' m', plan !! d' = Some (Some m') -> Rich.Slug m' <> Rich.Slug m) ->
  SlugsUnique (<[d := Some m]> plan).
Proof.
  intros Huniq Hfresh d1 d2 m1 m2 H1 H2 Heq.
  apply lookup_insert_Some in H1 as [[<- H1]|[Hne1 H1]];
    apply lookup_insert_Some in H2 as [[<- H2]|[Hne2 H2]].
  - reflexivity.
  - injection H1 as <-. exfalso. exact (Hfresh _ _ H2 (eq_sym Heq)).
  - injection H2 as <-. exfalso. exact (Hfresh _ _ H1 Heq).
  - exact (Huniq _ _ _ _ H1 H2 Heq).
Qed.

(** A day's commitment keeps the slugs of the plan unique. *)
Lemma rankDay_SlugsUnique (st st' : Rich.RankState) (day : WeekDay.t) :
  Rich.rankDay meals bonusProductIds products st day = Some st' ->
  SlugsUnique (Rich.plan st) -> SlugsUnique (Rich.plan st').
Proof.
  intros Hrun Huniq.
  destruct (rankDay_commits st day) as (e & k' & Hday & He).
  rewrite Hday in Hrun. injection Hrun as <-.
  unfold Rich.commit, Rich.assign. cbn [Rich.plan].
  destruct (Rich.setter st && String.eqb (WeekDay.Day day) "__proto__"); [assumption|].
  destruct e as [m|].
  - destruct He as (c & Hin & ->).
    apply SlugsUnique_insert_fresh; [assumption|].
    now apply rich_matches_fresh with day.
  - now apply SlugsUnique_insert_null.
Qed.

Lemma rankLoop_SlugsUnique (weekPlan : list WeekDay.t) (st st' : Rich.RankState) :
  Rich.rankLoop meals bonusProductIds products weekPlan st = Some st' ->
  SlugsUnique (Rich.plan st) -> SlugsUnique (Rich.plan st').
Proof.
  revert st. induction weekPlan as [|day rest IH]; intros st Hrun Huniq; simpl in Hrun.
  - now injection Hrun as <-.
  - destruct (Rich.rankDay meals bonusProductIds products st day) as [st1|] eqn:Hday;
      [|discriminate].
    apply (IH st1 Hrun). now apply rankDay_SlugsUnique with st day.
Qed.

(** A property of the entries that every commitment has holds of the plan. *)
Lemma rankLoop_entries (P : option Rich.RankedMeal -> Prop) :
  P None ->
  (forall plan day c, In c (Rich.matches meals bonusProductIds products plan day) ->
                      P (Some (Rich.matched c))) ->
  forall weekPlan st st',
    Rich.rankLoop meals bonusProductIds products weekPlan st = Some st' ->
    (forall d e, Rich.plan st !! d = Some e -> P e) ->
    forall d e, Rich.plan st' !! d = Some e -> P e.
Proof.
  intros Hnull Hcommit weekPlan.
  induction weekPlan as [|day rest IH]; intros st st' Hrun Hst; simpl in Hrun.
  - now injection Hrun as <-.
  - destruct (rankDay_commits st day) as (e0 & k' & Hday & He0).
    rewrite Hday in Hrun. apply (IH _ _ Hrun).
    intros d e Hd. apply commit_lookup_Some in Hd as [[_ ->]|Hd].
    + destruct e0 as [m|]; [|exact Hnull].
      destruct He0 as (c & Hin & ->). now apply Hcommit with (Rich.plan st) day.
    + now apply Hst with d.
Qed.

(** The plan has an entry for every day of the week whose name is an
    ordinary property name, and an entry only for the names of its days. *)
Lemma rankLoop_keys (weekPlan : list WeekDay.t) (st st' : Rich.RankState) (d : string) :
  Rich.rankLoop meals bonusProductIds products weekPlan st = Some st' ->
  (is_Some (Rich.plan st' !! d) ->
   is_Some (Rich.plan st !! d) \/ In d (map WeekDay.Day weekPlan))
  /\ (is_Some (Rich.plan st !! d)
      \/ (In d (map WeekDay.Day weekPlan) /\ d <> "__proto__") ->
      is_Some (Rich.plan st' !! d)).
Proof.
  revert st. induction weekPlan as [|day rest IH]; intros st Hrun; simpl in *.
  - injection Hrun as <-. tauto.
  - destruct (rankDay_commits st day) as (e0 & k' & Hday & _).
    rewrite Hday in Hrun. destruct (IH _ Hrun) as [IH1 IH2]. split.
    + intros Hs. destruct (IH1 Hs) as [[e He]|Hin]; [|tauto].
      apply commit_lookup_Some in He as [[Heq _]|He]; [tauto | left; eauto].
    + intros Hs. apply IH2.
      destruct (decide (WeekDay.Day day = d)) as [Heq|Hne].
      * destruct (decide (d = "__proto__")) as [Hp|Hp].
        -- destruct Hs as [[e He]|[_ Hn]]; [|contradiction].
           destruct (Rich.plan (Rich.commit st (WeekDay.Day day) e0 k') !! d) eqn:Hl;
             [left; eauto|].
           exfalso. revert Hl. unfold Rich.commit, Rich.assign. cbn [Rich.plan].
           destruct (Rich.setter st && String.eqb (WeekDay.Day day) "__proto__").
           ++ rewrite He. discriminate.
           ++ rewrite Heq, lookup_insert_eq. discriminate.
        -- left. subst d. rewrite commit_lookup_same by assumption. eauto.
      * rewrite commit_lookup_other by assumption.
        destruct Hs as [Hs|[[Heq|Hin] Hn]]; [tauto | contradiction | tauto].
Qed.
End RichLoop.

Lemma SlugsUnique_empty : SlugsUnique ∅.
Proof. intros d1 d2 m1 m2 H1. rewrite lookup_empty in H1. discriminate. Qed.

(** C3: [rankMeals] returns a plan in which no slug is held by the non-null
    entries of two different days, and the plan accumulated after any number
    of days of the week has the same property. *)
Theorem rankMeals_slugs_unique `{JsRuntime} (meals : list Meal.t)
    (bonusProductIds : list string) (products : list Product.t)
    (weekPlan : list WeekDay.t) :
  (exists plan, Rich.rankMeals meals bonusProductIds products weekPlan = Some plan
                /\ SlugsUnique plan)
  /\ forall pre suf, weekPlan = pre ++ suf ->
       exists st, Rich.rankLoop meals bonusProductIds products pre initial = Some st
                  /\ SlugsUnique (Rich.plan st).
Proof.
  assert (Hprefix : forall days,
             exists st, Rich.rankLoop meals bonusProductIds products days initial = Some st
                        /\ SlugsUnique (Rich.plan st)).
  { intros days.
    destruct (rankLoop_total meals bonusProductIds products days initial) as [st Hst].
    exists st. split; [exact Hst|].
    apply (rankLoop_SlugsUnique _ _ _ _ _ _ Hst). apply SlugsUnique_empty. }
  split.
  - destruct (Hprefix weekPlan) as (st & Hst & Huniq).
    exists (Rich.plan st). split; [|exact Huniq].
    unfold Rich.rankMeals. fold initial. now rewrite Hst.
  - intros pre suf _. apply Hprefix.
Qed.

Lemma rankMeals_slugs_unique_witness :
  [Ex.monday; Ex.thursday] = [Ex.monday] ++ [Ex.thursday]
  /\ exists st,
       Rich.rankLoop [Ex.pasta; Ex.curry] ["1525"] [Ex.tomatoes; Ex.spaghetti; Ex.rice]
         [Ex.monday] initial = Some st
       /\ SlugsUnique (Rich.plan st).
Proof.
  split; [reflexivity|].
  exact (proj2 (rankMeals_slugs_unique [Ex.pasta; Ex.curry] ["1525"]
                  [Ex.tomatoes; Ex.spaghetti; Ex.rice] [Ex.monday; Ex.thursday])
               [Ex.monday] [Ex.thursday] eq_refl).
Defined.

Section Selection.
Context `{JsRuntime}.
Variables (meals : list Meal.t) (bonusProductIds : list string) (products : list Product.t).






End Selection.



(** ** Empty inputs *)

Section EmptyInputs.
Context `{JsRuntime}.

Lemma rich_matches_no_products (meals : list Meal.t) (bonusProductIds : list string)
    (plan : gmap string (option Rich.RankedMeal)) (day : WeekDay.t) (c : Rich.Match) :
  ~ In c (Rich.matches meals bonusProductIds [] plan day).
Proof.
  intros Hin. apply rich_matches_In in Hin as (meal & _ & Hkeep & _).
  unfold Rich.keep, Rich.pairWithIngredients in Hkeep. simpl in Hkeep. discriminate.
Qed.

Lemma rich_matches_no_bonus (meals : list Meal.t) (products : list Product.t)
    (plan : gmap string (option Rich.RankedMeal)) (day : WeekDay.t) (c : Rich.Match) :
  In c (Rich.matches meals [] products plan day) ->
  Rich.score c = 0
  /\ Rich.productsDiscounted (Rich.matched c) = []
  /\ forall p, In p (Rich.productsRequired (Rich.matched c)) ->
               Product.IsBonusRequired p = false.
Proof.
  intros Hin. apply rich_matches_In in Hin as (meal & _ & Hkeep & ->).
  unfold Rich.keep, Rich.pairWithIngredients in Hkeep. cbv beta iota zeta in Hkeep.
  split_andb Hkeep.
  unfold Rich.scoreMeal, Rich.pairWithIngredients. cbn [Rich.score Rich.matched
    Rich.productsDiscounted Rich.productsRequired].
  assert (Hnone : forall l : list Product.t,
             List.filter (fun p => includes [] (Product.ID p)) l = []).
  { induction l; simpl; auto. }
  rewrite Hnone. repeat split.
  intros p Hp.
  match goal with
  | Hd : Rich.isRequiredProductDiscountsValid _ _ = true |- _ =>
      pose proof (proj1 (rich_discounts_valid_iff _ _) Hd p Hp) as Hreq
  end.
  destruct (Product.IsBonusRequired p); [|reflexivity].
  destruct (Hreq eq_refl).
Qed.
End EmptyInputs.

(** C2, as the code has it: [rankMeals] never throws.  With an empty
    product catalogue every entry of the plan it returns is null.  With an
    empty bonus list an entry is null or a meal without discounted product,
    none of whose products is marked [IsBonusRequired]. *)
Theorem rankMeals_empty_inputs `{JsRuntime} (meals : list Meal.t)
    (bonusProductIds : list string) (products : list Product.t)
    (weekPlan : list WeekDay.t) :
  exists plan,
    Rich.rankMeals meals bonusProductIds products weekPlan = Some plan
    /\ (products = [] -> forall d e, plan !! d = Some e -> e = None)
    /\ (bonusProductIds = [] ->
        forall d m, plan !! d = Some (Some m) ->
          Rich.productsDiscounted m = []
          /\ forall p, In p (Rich.productsRequired m) -> Product.IsBonusRequired p = false).
Proof.
  destruct (rankLoop_total meals bonusProductIds products weekPlan initial) as [st Hst].
  exists (Rich.plan st). split; [unfold Rich.rankMeals; fold initial; now rewrite Hst|].
  split.
  - intros -> d e Hd.
    apply (rankLoop_entries meals bonusProductIds [] (fun e => e = None))
      with (weekPlan := weekPlan) (st := initial) (st' := st) (d := d); auto.
    + intros plan day c Hin. now apply rich_matches_no_products in Hin.
    + intros d' e'. simpl. rewrite lookup_empty. discriminate.
  - intros -> d m Hd.
    apply (rankLoop_entries meals [] products
             (fun e => match e with
                       | Some m => Rich.productsDiscounted m = []
                                   /\ forall p, In p (Rich.productsRequired m) ->
                                                Product.IsBonusRequired p = false
                       | None => True
                       end))
      with (weekPlan := weekPlan) (st := initial) (st' := st) (d := d) (e := Some m); auto.
    + intros plan day c Hin. now apply rich_matches_no_bonus in Hin.
    + intros d' e'. simpl. rewrite lookup_empty. discriminate.
Qed.

Lemma rankMeals_empty_inputs_witness :
  @nil Product.t = []
  /\ exists plan,
       Rich.rankMeals [Ex.pasta; Ex.curry] ["1525"] [] [Ex.monday; Ex.thursday] = Some plan
       /\ forall d e, plan !! d = Some e -> e = None.
Proof.
  split; [reflexivity|].
  destruct (rankMeals_empty_inputs [Ex.pasta; Ex.curry] ["1525"] []
              [Ex.monday; Ex.thursday]) as (plan & Hrun & Hnull & _).
  exists plan. split; [exact Hrun | exact (Hnull eq_refl)].
Defined.

(** C2 as stated fails: with an empty bonus list, [rankMeals] commits
    [curry], whose only product needs no discount, for Monday. *)
Lemma rankMeals_empty_bonus_commits :
  exists plan m,
    Rich.rankMeals [Ex.curry] [] [Ex.rice] [Ex.monday] = Some plan
    /\ plan !! "Monday" = Some (Some m)
    /\ Rich.meal m = Ex.curry
    /\ ~ (forall d e, plan !! d = Some e -> e = None).
Proof.
  destruct (Rich.rankMeals [Ex.curry] [] [Ex.rice] [Ex.monday]) as [plan|] eqn:Hrun;
    [|vm_compute in Hrun; discriminate].
  assert (Hlook : Rich.rankMeals [Ex.curry] [] [Ex.rice] [Ex.monday]
                    ≫= (fun plan => plan !! "Monday")
                  = Some (Some (Rich.matched
                                  (Rich.scoreMeal [] Ex.monday
                                     (Rich.pairWithIngredients [Ex.rice] Ex.curry)))))
    by (vm_compute; reflexivity).
  rewrite Hrun in Hlook. simpl in Hlook.
  exists plan. eexists. split; [reflexivity|]. split; [exact Hlook|].
  split; [reflexivity|].
  intros Hnull. specialize (Hnull _ _ Hlook). discriminate.
Qed.

(** ** The shopping list *)

Lemma avoids_app (sep : ascii) (a b : string) :
  avoids sep (a +:+ b) = avoids sep a && avoids sep b.
Proof.
  induction a as [|c a IH]; simpl; [reflexivity|].
  rewrite IH. now rewrite andb_assoc.
Qed.

Lemma split_on_avoids (sep : ascii) (a : string) :
  avoids sep a = true -> split_on sep a = [a].
Proof.
  induction a as [|c a IH]; simpl; [reflexivity|].
  intros Ha. apply andb_true_iff in Ha as [Hc Ha].
  apply negb_true_iff in Hc. rewrite Hc, (IH Ha). reflexivity.
Qed.

Lemma split_on_app (sep : ascii) (a b : string) :
  avoids sep a = true ->
  split_on sep (a +:+ String sep b) = a :: split_on sep b.
Proof.
  induction a as [|c a IH]; simpl.
  - intros _. now rewrite Ascii.eqb_refl.
  - intros Ha. apply andb_true_iff in Ha as [Hc Ha].
    apply negb_true_iff in Hc. rewrite Hc, (IH Ha). reflexivity.
Qed.

Lemma break_at_avoids (sep : ascii) (a : string) :
  avoids sep a = true -> break_at sep a = (a, EmptyString).
Proof.
  induction a as [|c a IH]; simpl; [reflexivity|].
  intros Ha. apply andb_true_iff in Ha as [Hc Ha].
  apply negb_true_iff in Hc. rewrite Hc, (IH Ha). reflexivity.
Qed.

Lemma break_at_app (sep : ascii) (a b : string) :
  avoids sep a = true -> break_at sep (a +:+ String sep b) = (a, b).
Proof.
  induction a as [|c a IH]; simpl.
  - intros _. now rewrite Ascii.eqb_refl.
  - intros Ha. apply andb_true_iff in Ha as [Hc Ha].
    apply negb_true_iff in Hc. rewrite Hc, (IH Ha). reflexivity.
Qed.

(** An encoded string holds neither [&] nor [=]. *)
Lemma urlencode_avoids (sep : ascii) (s : string) :
  sep = "&"%char \/ sep = "="%char -> avoids sep (urlencode s) = true.
Proof.
  intros Hsep. induction s as [|c s IH]; [reflexivity|].
  destruct Hsep as [-> | ->];
    destruct c as [[] [] [] [] [] [] [] []]; cbn; exact IH.
Qed.

(** Decoding undoes encoding. *)
Lemma urldecode_urlencode (s : string) : urldecode (urlencode s) = s.
Proof.
  induction s as [|c s IH]; [reflexivity|].
  destruct c as [[] [] [] [] [] [] [] []]; simpl; rewrite IH; reflexivity.
Qed.

Lemma append_assoc3 (a b c : string) : (a +:+ b) +:+ c = a +:+ (b +:+ c).
Proof.
  induction a as [|x a IH]; [reflexivity|].
  change (String x ((a +:+ b) +:+ c) = String x (a +:+ (b +:+ c))).
  now rewrite IH.
Qed.

Lemma piece_avoids_amp (entry : string * string) : avoids "&" (piece entry) = true.
Proof.
  unfold piece. rewrite avoids_app. simpl.
  rewrite !urlencode_avoids by auto. reflexivity.
Qed.

Lemma piece_not_empty (entry : string * string) :
  negb (String.eqb (piece entry) EmptyString) = true.
Proof. unfold piece. now destruct (urlencode (fst entry)). Qed.

Lemma break_at_piece (entry : string * string) :
  (let '(n, v) := break_at "=" (piece entry) in (urldecode n, urldecode v)) = entry.
Proof.
  unfold piece. rewrite break_at_app by (apply urlencode_avoids; auto).
  rewrite !urldecode_urlencode. now destruct entry.
Qed.

Lemma serialize_params_cons (entry next : string * string) (rest : list (string * string)) :
  serialize_params (entry :: next :: rest)
  = piece entry +:+ String "&" (serialize_params (next :: rest)).
Proof.
  destruct entry as [n v]. unfold piece.
  change (serialize_params ((n, v) :: next :: rest))
    with (urlencode n +:+ "=" +:+ urlencode v +:+ "&" +:+ serialize_params (next :: rest)).
  simpl fst; simpl snd.
  change ("=" +:+ urlencode v +:+ "&" +:+ serialize_params (next :: rest))
    with (String "=" (urlencode v +:+ String "&" (serialize_params (next :: rest)))).
  rewrite append_assoc3. reflexivity.
Qed.

Lemma serialize_params_single (entry : string * string) :
  serialize_params [entry] = piece entry.
Proof. now destruct entry. Qed.

Lemma parse_query_single (entry : string * string) :
  parse_query (piece entry) = [entry].
Proof.
  unfold parse_query. rewrite split_on_avoids by apply piece_avoids_amp.
  cbn [List.filter]. rewrite piece_not_empty. cbn [map].
  now rewrite break_at_piece.
Qed.

Lemma parse_query_cons (entry : string * string) (query : string) :
  parse_query (piece entry +:+ String "&" query) = entry :: parse_query query.
Proof.
  unfold parse_query. rewrite split_on_app by apply piece_avoids_amp.
  cbn [List.filter]. rewrite piece_not_empty. cbn [map].
  now rewrite break_at_piece.
Qed.

(** The query string reads back as the entries it was written from. *)
Lemma parse_query_serialize (entries : list (string * string)) :
  parse_query (serialize_params entries) = entries.
Proof.
  induction entries as [|entry rest IH]; [reflexivity|].
  destruct rest as [|next rest].
  - rewrite serialize_params_single. apply parse_query_single.
  - rewrite serialize_params_cons, parse_query_cons. now rewrite IH.
Qed.

(** ** The quantity resolver on the store *)

Lemma preserved_refl (h : Store.t) : Store.preserved h h.
Proof. split; auto. Qed.

Lemma preserved_trans (h1 h2 h3 : Store.t) :
  Store.preserved h1 h2 -> Store.preserved h2 h3 -> Store.preserved h1 h3.
Proof. intros [Ho1 Ha1] [Ho2 Ha2]. split; auto. Qed.

Lemma nth_error_app_old {A : Type} (l l' : list A) (n : nat) (x : A) :
  nth_error l n = Some x -> nth_error (l ++ l') n = Some x.
Proof.
  intros Hn. rewrite List.nth_error_app1; [assumption|].
  apply List.nth_error_Some. congruence.
Qed.

Lemma nth_error_app_new {A : Type} (l : list A) (x : A) :
  nth_error (l ++ [x]) (length l) = Some x.
Proof. rewrite List.nth_error_app2, Nat.sub_diag by lia. reflexivity. Qed.

Lemma newObject_preserved (p : Product.t) (h : Store.t) :
  Store.preserved h (snd (Store.newObject p h)).
Proof. split; simpl; auto using nth_error_app_old. Qed.

Lemma newArray_preserved (a : list nat) (h : Store.t) :
  Store.preserved h (snd (Store.newArray a h)).
Proof. split; simpl; auto using nth_error_app_old. Qed.

Lemma readObjects_preserved (h h' : Store.t) (refs : list nat) (ps : list Product.t) :
  Store.preserved h h' ->
  Store.readObjects h refs = Some ps -> Store.readObjects h' refs = Some ps.
Proof.
  intros [Hobj _]. revert ps. induction refs as [|r refs IH]; intros ps; simpl; [auto|].
  destruct (nth_error (Store.objects h) r) as [p|] eqn:Hr; [|discriminate].
  destruct (Store.readObjects h refs) as [ps'|]; [|discriminate].
  intros Hps. now rewrite (Hobj _ _ Hr), (IH ps').
Qed.

Lemma readArray_preserved (h h' : Store.t) (a : nat) (ps : list Product.t) :
  Store.preserved h h' ->
  Store.readArray h a = Some ps -> Store.readArray h' a = Some ps.
Proof.
  intros Hpre. unfold Store.readArray.
  destruct (nth_error (Store.arrays h) a) as [refs|] eqn:Ha; [|discriminate].
  rewrite (proj2 Hpre _ _ Ha). now apply readObjects_preserved.
Qed.

Lemma readObjects_same_objects (h h' : Store.t) (refs : list nat) :
  Store.objects h' = Store.objects h ->
  Store.readObjects h' refs = Store.readObjects h refs.
Proof.
  intros Hobj. induction refs as [|r refs IH]; simpl; [reflexivity|].
  now rewrite Hobj, IH.
Qed.

Lemma readArray_newArray (refs : list nat) (h : Store.t) :
  Store.readArray (snd (Store.newArray refs h)) (fst (Store.newArray refs h))
  = Store.readObjects h refs.
Proof.
  unfold Store.readArray. simpl. rewrite nth_error_app_new.
  now apply readObjects_same_objects.
Qed.

(** [.map] allocates the scaled copies and touches nothing else. *)
Lemma scaleRefs_spec (k : number) (refs : list nat) (h : Store.t) (ps : list Product.t) :
  Store.readObjects h refs = Some ps ->
  exists out h',
    Store.scaleRefs k refs h = Some (out, h')
    /\ Store.preserved h h'
    /\ Store.readObjects h' out
       = Some (map (fun p => Product.withQuantity p (number_mul (Product.Quantity p) k)) ps).
Proof.
  revert h ps. induction refs as [|r refs IH]; intros h ps; simpl.
  - intros [= <-]. exists [], h. auto using preserved_refl.
  - destruct (nth_error (Store.objects h) r) as [p|] eqn:Hr; [|discriminate].
    destruct (Store.readObjects h refs) as [ps'|] eqn:Hps'; [|discriminate].
    intros [= <-].
    set (p' := Product.withQuantity p (number_mul (Product.Quantity p) k)).
    pose proof (newObject_preserved p' h) as Hnew.
    destruct (IH _ _ (readObjects_preserved _ _ _ _ Hnew Hps')) as (out & h' & Hrun & Hpre & Hout).
    simpl in Hrun. rewrite Hrun.
    exists (length (Store.objects h) :: out), h'. split; [reflexivity|].
    split; [now apply preserved_trans with (snd (Store.newObject p' h))|].
    simpl. rewrite (proj1 Hpre (length (Store.objects h)) p'), Hout; [reflexivity|].
    simpl. apply nth_error_app_new.
Qed.

(** [.filter] reads the objects and selects their references. *)
Lemma filterRefs_spec (f : Product.t -> bool) (refs : list nat) (h : Store.t)
    (ps : list Product.t) :
  Store.readObjects h refs = Some ps ->
  exists own, Store.filterRefs f h refs = Some own
              /\ Store.readObjects h own = Some (List.filter f ps).
Proof.
  revert ps. induction refs as [|r refs IH]; intros ps; simpl.
  - intros [= <-]. exists []. auto.
  - destruct (nth_error (Store.objects h) r) as [p|] eqn:Hr; [|discriminate].
    destruct (Store.readObjects h refs) as [ps'|] eqn:Hps'; [|discriminate].
    intros [= <-]. destruct (IH _ eq_refl) as (own & -> & Hown).
    eexists. split; [reflexivity|]. simpl.
    destruct (f p); simpl; [rewrite Hr, Hown|]; auto.
Qed.

Lemma rich_resolver_run (day : WeekDay.t) (meal : Meal.t) (ingredients : nat) (f : bool)
    (h : Store.t) (ps : list Product.t) :
  Store.readArray h ingredients = Some ps ->
  exists out h',
    Store.getRequiredProductsForMeal day meal ingredients f h = Some (out, h')
    /\ Store.preserved h h'
    /\ Store.readArray h' out = Some (Rich.getRequiredProductsForMeal day meal ps f).
Proof.
  intros Hps. unfold Store.getRequiredProductsForMeal.
  unfold Store.readArray in Hps.
  destruct (nth_error (Store.arrays h) ingredients) as [refs|]; [|discriminate].
  destruct (scaleRefs_spec (multiplier day meal f) refs h ps Hps) as (out & h1 & -> & Hpre & Hout).
  exists (fst (Store.newArray out h1)), (snd (Store.newArray out h1)).
  split; [reflexivity|]. split.
  - apply preserved_trans with h1; [assumption | apply newArray_preserved].
  - rewrite readArray_newArray. exact Hout.
Qed.

Lemma strict_resolver_run (day : WeekDay.t) (meal : Meal.t) (products : nat) (f : bool)
    (h : Store.t) (ps : list Product.t) :
  Store.readArray h products = Some ps ->
  exists out h',
    Store.getRequiredProductsForMeal_strict day meal products f h = Some (out, h')
    /\ Store.preserved h h'
    /\ Store.readArray h' out = Some (Strict.getRequiredProductsForMeal day meal ps f).
Proof.
  intros Hps. unfold Store.getRequiredProductsForMeal_strict.
  unfold Store.readArray in Hps.
  destruct (nth_error (Store.arrays h) products) as [refs|]; [|discriminate].
  destruct (filterRefs_spec (ownedBy meal) refs h ps Hps) as (own & -> & Hown).
  pose proof (newArray_preserved own h) as Hpre0.
  destruct (Store.newArray own h) as [a0 h0] eqn:Hnew. simpl in Hpre0.
  destruct (scaleRefs_spec (multiplier day meal f) own h0 _
              (readObjects_preserved _ _ _ _ Hpre0 Hown)) as (out & h1 & -> & Hpre & Hout).
  exists (fst (Store.newArray out h1)), (snd (Store.newArray out h1)).
  split; [reflexivity|]. split.
  - apply preserved_trans with h0; [assumption|].
    apply preserved_trans with h1; [assumption | apply newArray_preserved].
  - rewrite readArray_newArray. exact Hout.
Qed.

Lemma scaled_sameButQuantity (k : number) (ps : list Product.t) :
  Forall2 sameButQuantity ps
    (map (fun p => Product.withQuantity p (number_mul (Product.Quantity p) k)) ps).
Proof. induction ps; simpl; constructor; [repeat split | assumption]. Qed.

(** C8: run on an array of the store, the resolver of either revision
    returns a new array of new objects and leaves every array and object the
    store held as it was, the input array included; the products of the
    returned array are those of the input (in the strict revision, those the
    meal owns), in order, equal to them on every field other than [Quantity];
    a second call on the same inputs returns an array of the same products. *)
Theorem getRequiredProductsForMeal_frame (day : WeekDay.t) (meal : Meal.t)
    (ingredients : nat) (f : bool) (h : Store.t) (ps : list Product.t) :
  Store.readArray h ingredients = Some ps ->
  (exists out h' res,
      Store.getRequiredProductsForMeal day meal ingredients f h = Some (out, h')
      /\ Store.preserved h h'
      /\ Store.readArray h' ingredients = Some ps
      /\ Store.readArray h' out = Some res
      /\ res = Rich.getRequiredProductsForMeal day meal ps f
      /\ Forall2 sameButQuantity ps res
      /\ exists out2 h2,
           Store.getRequiredProductsForMeal day meal ingredients f h' = Some (out2, h2)
           /\ Store.readArray h2 out2 = Some res
           /\ Store.readArray h2 out = Some res
           /\ Store.readArray h2 ingredients = Some ps)
  /\ (exists out h' res,
         Store.getRequiredProductsForMeal_strict day meal ingredients f h = Some (out, h')
         /\ Store.preserved h h'
         /\ Store.readArray h' ingredients = Some ps
         /\ Store.readArray h' out = Some res
         /\ res = Strict.getRequiredProductsForMeal day meal ps f
         /\ Forall2 sameButQuantity (List.filter (ownedBy meal) ps) res
         /\ exists out2 h2,
              Store.getRequiredProductsForMeal_strict day meal ingredients f h'
              = Some (out2, h2)
              /\ Store.readArray h2 out2 = Some res
              /\ Store.readArray h2 out = Some res
              /\ Store.readArray h2 ingredients = Some ps).
Proof.
  intros Hps. split.
  - destruct (rich_resolver_run day meal ingredients f h ps Hps)
      as (out & h' & Hrun & Hpre & Hout).
    pose proof (readArray_preserved _ _ _ _ Hpre Hps) as Hps'.
    destruct (rich_resolver_run day meal ingredients f h' ps Hps')
      as (out2 & h2 & Hrun2 & Hpre2 & Hout2).
    exists out, h', (Rich.getRequiredProductsForMeal day meal ps f).
    split; [exact Hrun|]. split; [exact Hpre|]. split; [exact Hps'|].
    split; [exact Hout|]. split; [reflexivity|].
    split; [apply scaled_sameButQuantity|].
    exists out2, h2. split; [exact Hrun2|]. split; [exact Hout2|].
    split; eapply readArray_preserved; eassumption.
  - destruct (strict_resolver_run day meal ingredients f h ps Hps)
      as (out & h' & Hrun & Hpre & Hout).
    pose proof (readArray_preserved _ _ _ _ Hpre Hps) as Hps'.
    destruct (strict_resolver_run day meal ingredients f h' ps Hps')
      as (out2 & h2 & Hrun2 & Hpre2 & Hout2).
    exists out, h', (Strict.getRequiredProductsForMeal day meal ps f).
    split; [exact Hrun|]. split; [exact Hpre|]. split; [exact Hps'|].
    split; [exact Hout|]. split; [reflexivity|].
    split; [apply scaled_sameButQuantity|].
    exists out2, h2. split; [exact Hrun2|]. split; [exact Hout2|].
    split; eapply readArray_preserved; eassumption.
Qed.

Lemma getRequiredProductsForMeal_frame_witness :
  let h := {| Store.objects := [Ex.tomatoes; Ex.rice; Ex.spaghetti];
              Store.arrays := [[0; 1; 2]%nat] |} in
  Store.readArray h 0 = Some [Ex.tomatoes; Ex.rice; Ex.spaghetti]
  /\ exists out h' res,
       Store.getRequiredProductsForMeal Ex.sunday Ex.pasta 0 true h = Some (out, h')
       /\ Store.preserved h h'
       /\ Store.readArray h' 0 = Some [Ex.tomatoes; Ex.rice; Ex.spaghetti]
       /\ Store.readArray h' out = Some res.
Proof.
  intros h.
  assert (Hps : Store.readArray h 0 = Some [Ex.tomatoes; Ex.rice; Ex.spaghetti])
    by reflexivity.
  split; [exact Hps|].
  destruct (proj1 (getRequiredProductsForMeal_frame Ex.sunday Ex.pasta 0 true h _ Hps))
    as (out & h' & res & Hrun & Hpre & Hin & Hout & _).
  exists out, h', res. auto.
Defined.

(** ** Sorting the week *)

Lemma StronglySorted_weaken {A : Type} (R R' : A -> A -> Prop) (l : list A) :
  (forall a b, R a b -> R' a b) -> StronglySorted R l -> StronglySorted R' l.
Proof.
  intros Himp. induction 1 as [|x l Hs IH Hx]; constructor; [assumption|].
  eapply List.Forall_impl; [|exact Hx]. apply Himp.
Qed.

(** C10: [sortWeekByPreparationTime] returns the array it was given; after
    the call that array holds the days it held before, reordered by ascending
    [MaxPreparationTime], and the other arrays are untouched; the entry points
    rank the days of that array, so in that order. *)
Theorem sortWeekByPreparationTime_in_place `{JsRuntime} (meals : list Meal.t)
    (bonusProductIds : list string) (products : list Product.t)
    (Week : nat) (s : list (list WeekDay.t)) (days : list WeekDay.t) :
  s !! Week = Some days ->
  exists sorted,
    fst (Store.sortWeekByPreparationTime Week s) = Week
    /\ snd (Store.sortWeekByPreparationTime Week s) !! Week = Some sorted
    /\ (forall a, a <> Week -> snd (Store.sortWeekByPreparationTime Week s) !! a = s !! a)
    /\ Permutation sorted days
    /\ StronglySorted (fun a b => WeekDay.MaxPreparationTime a <= WeekDay.MaxPreparationTime b)
         sorted
    /\ Store.main meals bonusProductIds products Week s
       = Rich.rankMeals meals bonusProductIds products sorted
    /\ Store.main_match meals bonusProductIds products Week s
       = Some (Strict.matchMeals meals bonusProductIds products sorted).
Proof.
  intros Hdays.
  set (cmp := fun a b : WeekDay.t =>
                WeekDay.MaxPreparationTime a - WeekDay.MaxPreparationTime b).
  exists (js_sort cmp days).
  assert (Hlen : (Week < length s)%nat) by (eapply lookup_lt_Some; eassumption).
  assert (Hsnd : snd (Store.sortWeekByPreparationTime Week s) = <[Week := js_sort cmp days]> s).
  { unfold Store.sortWeekByPreparationTime. now rewrite Hdays. }
  assert (Hread : snd (Store.sortWeekByPreparationTime Week s) !! Week
                  = Some (js_sort cmp days)).
  { rewrite Hsnd. now apply list_lookup_insert_eq. }
  split; [reflexivity|]. split; [exact Hread|]. split.
  { intros a Ha. rewrite Hsnd. apply list_lookup_insert_ne. congruence. }
  split; [apply js_sort_perm|]. split.
  { apply StronglySorted_weaken with (R := fun a b => cmp a b <= 0).
    - unfold cmp. intros a b. lia.
    - apply js_sort_sorted; unfold cmp; intros; lia. }
  unfold Store.main, Store.main_match.
  destruct (Store.sortWeekByPreparationTime Week s) as [week s'] eqn:Hsort.
  assert (week = Week) as -> by (unfold Store.sortWeekByPreparationTime in Hsort; congruence).
  simpl in Hread. rewrite Hread. auto.
Qed.

Lemma sortWeekByPreparationTime_in_place_witness :
  [[Ex.monday; Ex.thursday; Ex.sunday]] !! 0%nat = Some [Ex.monday; Ex.thursday; Ex.sunday]
  /\ exists sorted,
       snd (Store.sortWeekByPreparationTime 0 [[Ex.monday; Ex.thursday; Ex.sunday]]) !! 0%nat
       = Some sorted
       /\ Permutation sorted [Ex.monday; Ex.thursday; Ex.sunday]
       /\ Store.main [Ex.pasta; Ex.curry] ["1525"] [Ex.tomatoes; Ex.spaghetti; Ex.rice]
            0 [[Ex.monday; Ex.thursday; Ex.sunday]]
          = Rich.rankMeals [Ex.pasta; Ex.curry] ["1525"]
              [Ex.tomatoes; Ex.spaghetti; Ex.rice] sorted.
Proof.
  assert (Hdays : [[Ex.monday; Ex.thursday; Ex.sunday]] !! 0%nat
                  = Some [Ex.monday; Ex.thursday; Ex.sunday]) by reflexivity.
  split; [exact Hdays|].
  destruct (sortWeekByPreparationTime_in_place [Ex.pasta; Ex.curry] ["1525"]
              [Ex.tomatoes; Ex.spaghetti; Ex.rice] 0 _ _ Hdays)
    as (sorted & _ & Hread & _ & Hperm & _ & Hmain & _).
  exists sorted. auto.
Defined.

(** The order of the sorted week is not the order of the input: Thursday,
    with the shortest preparation time, is ranked first. *)
Lemma sortWeekByPreparationTime_reorders :
  Store.sortWeekByPreparationTime 0 [[Ex.monday; Ex.thursday; Ex.sunday]]
  = (0%nat, [[Ex.thursday; Ex.monday; Ex.sunday]]).
Proof. reflexivity. Qed.

(** ** Product identifiers of links *)

Lemma takeDigits_split (s : string) :
  s = fst (takeDigits s) +:+ snd (takeDigits s)
  /\ allDigits (fst (takeDigits s)) = true.
Proof.
  induction s as [|c s [IHs IHd]]; [split; reflexivity|].
  cbn [takeDigits]. destruct (isDigit c) eqn:Hc.
  - destruct (takeDigits s) as [ds after]. cbn [fst snd] in *. split.
    + change (String c s = String c (ds +:+ after)). now rewrite <- IHs.
    + cbn [allDigits]. now rewrite Hc, IHd.
  - split; reflexivity.
Qed.

Lemma takeDigits_app (id rest : string) :
  allDigits id = true ->
  (rest = EmptyString \/ exists r, rest = String "/" r) ->
  takeDigits (id +:+ rest) = (id, rest).
Proof.
  intros Hid Hrest. induction id as [|c id IH].
  - change (EmptyString +:+ rest) with rest.
    destruct Hrest as [-> | [r ->]]; reflexivity.
  - cbn [allDigits] in Hid. apply andb_true_iff in Hid as [Hc Hid].
    change (String c id +:+ rest) with (String c (id +:+ rest)).
    cbn [takeDigits]. now rewrite Hc, (IH Hid).
Qed.

Lemma matchAt_sound (s id : string) :
  matchAt s = Some id ->
  id <> EmptyString
  /\ allDigits id = true
  /\ exists post, s = "/wi" +:+ id +:+ post
                  /\ (post = EmptyString \/ exists r, post = String "/" r).
Proof.
  unfold matchAt.
  destruct s as [|c0 [|c1 [|c2 rest]]]; try discriminate;
    try (destruct c0 as [[] [] [] [] [] [] [] []]; discriminate).
  - destruct c0 as [[] [] [] [] [] [] [] []]; try discriminate.
    destruct c1 as [[] [] [] [] [] [] [] []]; discriminate.
  - destruct c0 as [[] [] [] [] [] [] [] []]; try discriminate.
    destruct c1 as [[] [] [] [] [] [] [] []]; try discriminate.
    destruct c2 as [[] [] [] [] [] [] [] []]; try discriminate.
    destruct (takeDigits_split rest) as [Hsplit Hdigits].
    destruct (takeDigits rest) as [ds after]. cbn [fst snd] in *.
    destruct ds as [|d ds]; [discriminate|].
    assert (Hpost : forall post,
               after = post -> (post = EmptyString \/ exists r, post = String "/" r) ->
               Some (String d ds) = Some id ->
               id <> EmptyString /\ allDigits id = true
               /\ exists post, String "/" (String "w" (String "i" rest))
                               = "/wi" +:+ id +:+ post
                               /\ (post = EmptyString \/ exists r, post = String "/" r)).
    { intros post -> Hshape [= <-]. split; [discriminate|]. split; [exact Hdigits|].
      exists post. split; [|exact Hshape].
      change ("/wi" +:+ String d ds +:+ post)
        with (String "/" (String "w" (String "i" (String d ds +:+ post)))).
      now rewrite <- Hsplit. }
    destruct after as [|a after].
    + intros Hid. apply (Hpost EmptyString); auto.
    + destruct a as [[] [] [] [] [] [] [] []]; try discriminate.
      intros Hid. apply (Hpost (String "/" after)); eauto.
Qed.

(** X1: the identifier read from a link is a run of digits; when it is not
    empty, the link holds it right after [/wi], and the end of the link or a
    [/] follows it. *)
Theorem productIdOf_sound (href : string) :
  allDigits (productIdOf href) = true
  /\ (productIdOf href <> EmptyString ->
      exists pre post,
        href = pre +:+ "/wi" +:+ productIdOf href +:+ post
        /\ (post = EmptyString \/ exists r, post = String "/" r)).
Proof.
  induction href as [|c href [IHd IHs]].
  - split; [reflexivity|]. intros Hne. now contradiction Hne.
  - cbn [productIdOf]. destruct (matchAt (String c href)) as [id|] eqn:Hm.
    + apply matchAt_sound in Hm as (_ & Hd & post & Hs & Hpost).
      split; [exact Hd|]. intros _. exists EmptyString, post. split; assumption.
    + split; [exact IHd|]. intros Hne.
      destruct (IHs Hne) as (pre & post & Hs & Hpost).
      exists (String c pre), post. split; [|exact Hpost].
      change (String c pre +:+ "/wi" +:+ productIdOf href +:+ post)
        with (String c (pre +:+ "/wi" +:+ productIdOf href +:+ post)).
      now rewrite <- Hs.
Qed.

Lemma productIdOf_sound_witness :
  productIdOf "https://www.ah.nl/producten/product/wi1525/ah-tomaten" <> EmptyString
  /\ exists pre post,
       "https://www.ah.nl/producten/product/wi1525/ah-tomaten"
       = pre +:+ "/wi"
         +:+ productIdOf "https://www.ah.nl/producten/product/wi1525/ah-tomaten" +:+ post.
Proof.
  assert (Hne : productIdOf "https://www.ah.nl/producten/product/wi1525/ah-tomaten"
                <> EmptyString) by (vm_compute; discriminate).
  split; [exact Hne|].
  destruct (proj2 (productIdOf_sound "https://www.ah.nl/producten/product/wi1525/ah-tomaten")
              Hne) as (pre & post & Hs & _).
  exists pre, post. exact Hs.
Defined.

Lemma matchAt_id (id rest : string) :
  allDigits id = true -> id <> EmptyString ->
  (rest = EmptyString \/ exists r, rest = String "/" r) ->
  matchAt ("/wi" +:+ id +:+ rest) = Some id.
Proof.
  intros Hid Hne Hrest.
  change ("/wi" +:+ id +:+ rest) with (String "/" (String "w" (String "i" (id +:+ rest)))).
  cbn [matchAt]. rewrite (takeDigits_app id rest Hid Hrest).
  destruct id as [|d id]; [congruence|].
  destruct Hrest as [-> | [r ->]]; reflexivity.
Qed.

(** X2: a link made of a prefix without the letter [i] (such as
    [https://www.ah.nl/producten/product]), then [/wi], a non-empty run of
    digits, and then nothing or a [/] and more, yields exactly that run. *)
Theorem productIdOf_product_link (prefix id rest : string) :
  avoids "i" prefix = true ->
  allDigits id = true -> id <> EmptyString ->
  (rest = EmptyString \/ exists r, rest = String "/" r) ->
  productIdOf (prefix +:+ "/wi" +:+ id +:+ rest) = id.
Proof.
  intros Hpre Hid Hne Hrest. induction prefix as [|c prefix IH].
  - change (EmptyString +:+ "/wi" +:+ id +:+ rest) with ("/wi" +:+ id +:+ rest).
    destruct id as [|d id]; [congruence|].
    change ("/wi" +:+ String d id +:+ rest)
      with (String "/" ("wi" +:+ String d id +:+ rest)).
    cbn [productIdOf].
    change (String "/" ("wi" +:+ String d id +:+ rest))
      with ("/wi" +:+ String d id +:+ rest).
    now rewrite (matchAt_id (String d id) rest Hid Hne Hrest).
  - cbn [avoids] in Hpre. apply andb_true_iff in Hpre as [Hc Hpre].
    change (String c prefix +:+ "/wi" +:+ id +:+ rest)
      with (String c (prefix +:+ "/wi" +:+ id +:+ rest)).
    cbn [productIdOf].
    assert (Hno : matchAt (String c (prefix +:+ "/wi" +:+ id +:+ rest)) = None).
    { destruct prefix as [|c1 [|c2 prefix]].
      - destruct c as [[] [] [] [] [] [] [] []]; reflexivity.
      - destruct c as [[] [] [] [] [] [] [] []]; try reflexivity.
        destruct c1 as [[] [] [] [] [] [] [] []]; reflexivity.
      - cbn [avoids] in Hpre.
        apply andb_true_iff in Hpre as [_ Hpre].
        apply andb_true_iff in Hpre as [Hc2 _].
        destruct c as [[] [] [] [] [] [] [] []]; try reflexivity.
        destruct c1 as [[] [] [] [] [] [] [] []]; try reflexivity.
        destruct c2 as [[] [] [] [] [] [] [] []]; try reflexivity.
        discriminate Hc2. }
    rewrite Hno. exact (IH Hpre).
Qed.

Lemma productIdOf_product_link_witness :
  avoids "i" "https://www.ah.nl/producten/product" = true
  /\ allDigits "1525" = true
  /\ "1525" <> EmptyString
  /\ productIdOf ("https://www.ah.nl/producten/product" +:+ "/wi" +:+ "1525"
                  +:+ "/ah-tomaten") = "1525".
Proof.
  assert (Hpre : avoids "i" "https://www.ah.nl/producten/product" = true) by reflexivity.
  assert (Hid : allDigits "1525" = true) by reflexivity.
  assert (Hne : "1525" <> EmptyString) by discriminate.
  split; [exact Hpre|]. split; [exact Hid|]. split; [exact Hne|].
  apply (productIdOf_product_link "https://www.ah.nl/producten/product" "1525"
           "/ah-tomaten" Hpre Hid Hne).
  right. exists "ah-tomaten". reflexivity.
Defined.

(** ** Rows of the sheet *)

Lemma setProperty_lookup (obj : gmap string Sheet.value) (header k : string)
    (v : Sheet.value) :
  Sheet.setProperty obj header v !! k
  = if decide (header = k /\ header <> "__proto__") then Some v else obj !! k.
Proof.
  unfold Sheet.setProperty.
  destruct (String.eqb_spec header "__proto__") as [Hp|Hp].
  - destruct (decide _) as [[_ Hne]|_]; [contradiction | reflexivity].
  - rewrite lookup_insert. destruct (decide (header = k)) as [->|Hk].
    + destruct (decide _) as [_|Hn]; [reflexivity | tauto].
    + destruct (decide _) as [[Heq _]|_]; [contradiction | reflexivity].
Qed.

Lemma rowObject_keys (i : nat) (headers row : list string) (obj : gmap string Sheet.value)
    (k : string) :
  is_Some (Sheet.rowObject i headers row obj !! k)
  <-> is_Some (obj !! k) \/ (In k headers /\ k <> "__proto__").
Proof.
  revert i obj. induction headers as [|header rest IH]; intros i obj; simpl.
  - tauto.
  - rewrite IH, setProperty_lookup.
    destruct (decide (header = k /\ header <> "__proto__")) as [[-> Hne]|Hno].
    + split; [intros _; right; auto | intros _; left; eauto].
    + split; [intros [Hs|[Hin Hne]] | intros [Hs|[[->|Hin] Hne]]]; tauto.
Qed.

Lemma rowObject_lookup_notin (i : nat) (headers row : list string)
    (obj : gmap string Sheet.value) (k : string) :
  ~ In k headers -> Sheet.rowObject i headers row obj !! k = obj !! k.
Proof.
  revert i obj. induction headers as [|header rest IH]; intros i obj Hnot; simpl.
  - reflexivity.
  - rewrite IH by (simpl in Hnot; tauto). rewrite setProperty_lookup.
    destruct (decide _) as [[-> _]|_]; [|reflexivity].
    exfalso. apply Hnot. now left.
Qed.

(** The field of the last column with a given header holds that column's cell. *)
Lemma rowObject_lookup (i j : nat) (headers row : list string)
    (obj : gmap string Sheet.value) (h : string) :
  nth_error headers j = Some h -> h <> "__proto__" ->
  (forall j', (j < j')%nat -> nth_error headers j' <> Some h) ->
  Sheet.rowObject i headers row obj !! h = Some (Sheet.cell row (i + j)).
Proof.
  revert i j obj. induction headers as [|header rest IH]; intros i j obj Hj Hne Hlast.
  - destruct j; discriminate.
  - destruct j as [|j]; simpl in Hj |- *.
    + injection Hj as ->.
      rewrite rowObject_lookup_notin.
      * rewrite setProperty_lookup, Nat.add_0_r.
        destruct (decide _) as [_|Hn]; [reflexivity | tauto].
      * intros Hin. apply In_nth_error in Hin as [j' Hj'].
        apply (Hlast (S j')); [lia | exact Hj'].
    + rewrite (IH (S i) j); [f_equal; f_equal; lia | assumption | assumption |].
      intros j' Hlt. apply (Hlast (S j')). lia.
Qed.

Lemma rowObject_values (P : Sheet.value -> Prop) (i : nat) (headers row : list string)
    (obj : gmap string Sheet.value) :
  (forall n, P (Sheet.cell row n)) ->
  (forall k v, obj !! k = Some v -> P v) ->
  forall k v, Sheet.rowObject i headers row obj !! k = Some v -> P v.
Proof.
  intros Hcell. revert i obj.
  induction headers as [|header rest IH]; intros i obj Hobj k v; simpl.
  - apply Hobj.
  - apply IH. intros k' v'. rewrite setProperty_lookup.
    destruct (decide _); [intros [= <-]; apply Hcell | apply Hobj].
Qed.

Lemma CSV2JSON_rows (headers row : list string) (data : list (list string)) :
  Sheet.CSV2JSON (headers :: row :: data)
  = map (fun row => Sheet.rowObject 0 headers row ∅) (row :: data).
Proof. reflexivity. Qed.

(** X3: [CSV2JSON] returns no object when there are fewer than two rows.
    When no header is [__proto__], it returns one object per row after the
    header row, and every object has as keys exactly the header names,
    however long its row is. *)
Theorem CSV2JSON_shape (rows : list (list string)) :
  ((length rows < 2)%nat -> Sheet.CSV2JSON rows = [])
  /\ forall headers data,
       rows = headers :: data -> ~ In "__proto__" headers ->
       length (Sheet.CSV2JSON rows) = length data
       /\ forall o k, In o (Sheet.CSV2JSON rows) -> (is_Some (o !! k) <-> In k headers).
Proof.
  destruct rows as [|headers [|row data]].
  - split; [reflexivity|]. intros; discriminate.
  - split; [reflexivity|]. intros headers' data' [= <- <-] _.
    split; [reflexivity|]. intros o k [].
  - rewrite CSV2JSON_rows. split; [simpl; lia|].
    intros headers' data' [= <- <-] Hproto.
    split; [now rewrite length_map|].
    intros o k Hin.
    apply in_map_iff in Hin as (row' & <- & _).
    rewrite rowObject_keys, lookup_empty. split.
    + intros [[? ?]|[Hk _]]; [discriminate | exact Hk].
    + intros Hk. right. split; [exact Hk|]. intros ->. contradiction.
Qed.

Lemma CSV2JSON_shape_witness :
  [["Slug"; "CanBeLeftovers"]; ["pasta"; "TRUE"]; ["curry"]]
  = ["Slug"; "CanBeLeftovers"] :: [["pasta"; "TRUE"]; ["curry"]]
  /\ ~ In "__proto__" ["Slug"; "CanBeLeftovers"]
  /\ length (Sheet.CSV2JSON [["Slug"; "CanBeLeftovers"]; ["pasta"; "TRUE"]; ["curry"]])
     = 2%nat
  /\ forall o k,
       In o (Sheet.CSV2JSON [["Slug"; "CanBeLeftovers"]; ["pasta"; "TRUE"]; ["curry"]]) ->
       (is_Some (o !! k) <-> In k ["Slug"; "CanBeLeftovers"]).
Proof.
  assert (Hproto : ~ In "__proto__" ["Slug"; "CanBeLeftovers"]).
  { intros [Heq|[Heq|[]]]; discriminate Heq. }
  split; [reflexivity|]. split; [exact Hproto|].
  exact (proj2 (CSV2JSON_shape
                  [["Slug"; "CanBeLeftovers"]; ["pasta"; "TRUE"]; ["curry"]])
           ["Slug"; "CanBeLeftovers"] [["pasta"; "TRUE"]; ["curry"]] eq_refl Hproto).
Defined.

(** X4: when no header is [__proto__], in the object of a data row the
    field named by a header, taken at its last column, holds that column's
    cell: [true] for ["TRUE"], [false] for ["FALSE"], the empty string for an
    empty or missing cell, and the cell itself for any other text that is not
    a member name of [Object.prototype]. *)
Theorem CSV2JSON_field (headers : list string) (data : list (list string))
    (r j : nat) (row : list string) (h : string) :
  nth_error data r = Some row ->
  ~ In "__proto__" headers ->
  nth_error headers j = Some h ->
  (forall j', (j < j')%nat -> nth_error headers j' <> Some h) ->
  exists o,
    nth_error (Sheet.CSV2JSON (headers :: data)) r = Some o
    /\ (nth_error row j = Some "TRUE" -> o !! h = Some (Sheet.VBool true))
    /\ (nth_error row j = Some "FALSE" -> o !! h = Some (Sheet.VBool false))
    /\ (nth_error row j = None \/ nth_error row j = Some "" ->
        o !! h = Some (Sheet.VString ""))
    /\ (forall c, nth_error row j = Some c -> c <> "" -> c <> "TRUE" -> c <> "FALSE" ->
                  ~ In c Sheet.Object_prototype -> o !! h = Some (Sheet.VString c)).
Proof.
  intros Hrow Hproto Hj Hlast.
  assert (Hne : h <> "__proto__").
  { intros ->. apply Hproto. now apply nth_error_In with j. }
  exists (Sheet.rowObject 0 headers row ∅).
  assert (Hfield : Sheet.rowObject 0 headers row ∅ !! h = Some (Sheet.cell row j)).
  { now rewrite (rowObject_lookup 0 j headers row ∅ h Hj Hne Hlast). }
  split.
  { destruct data as [|row0 data]; [destruct r; discriminate|].
    rewrite CSV2JSON_rows, nth_error_map, Hrow. reflexivity. }
  rewrite Hfield. unfold Sheet.cell.
  split; [intros ->; reflexivity|]. split; [intros ->; reflexivity|].
  split; [intros [-> | ->]; reflexivity|].
  intros c -> Hc Ht Hf Hp.
  destruct (String.eqb_spec c "") as [|_]; [contradiction|].
  unfold Sheet.boolMap.
  destruct (String.eqb_spec c "TRUE") as [|_]; [contradiction|].
  destruct (String.eqb_spec c "FALSE") as [|_]; [contradiction|].
  destruct (includes Sheet.Object_prototype c) eqn:Hinc; [|reflexivity].
  apply includes_In in Hinc. contradiction.
Qed.

Lemma CSV2JSON_field_witness :
  nth_error [["pasta"; "TRUE"]; ["curry"]] 1 = Some ["curry"]
  /\ ~ In "__proto__" ["Slug"; "CanBeLeftovers"]
  /\ nth_error ["Slug"; "CanBeLeftovers"] 1 = Some "CanBeLeftovers"
  /\ exists o,
       nth_error (Sheet.CSV2JSON [["Slug"; "CanBeLeftovers"]; ["pasta"; "TRUE"]; ["curry"]]) 1
       = Some o
       /\ (nth_error ["curry"] 1 = None \/ nth_error ["curry"] 1 = Some "" ->
           o !! "CanBeLeftovers" = Some (Sheet.VString "")).
Proof.
  assert (Hrow : nth_error [["pasta"; "TRUE"]; ["curry"]] 1 = Some ["curry"]) by reflexivity.
  assert (Hj : nth_error ["Slug"; "CanBeLeftovers"] 1 = Some "CanBeLeftovers") by reflexivity.
  assert (Hproto : ~ In "__proto__" ["Slug"; "CanBeLeftovers"]).
  { intros [Heq|[Heq|[]]]; discriminate Heq. }
  split; [exact Hrow|]. split; [exact Hproto|]. split; [exact Hj|].
  assert (Hlast : forall j', (1 < j')%nat ->
                             nth_error ["Slug"; "CanBeLeftovers"] j' <> Some "CanBeLeftovers").
  { intros [|[|[|j']]] Hlt; try lia; simpl; discriminate. }
  destruct (CSV2JSON_field ["Slug"; "CanBeLeftovers"] [["pasta"; "TRUE"]; ["curry"]]
              1 1 ["curry"] "CanBeLeftovers" Hrow Hproto Hj Hlast)
    as (o & Ho & _ & _ & Hempty & _).
  exists o. split; [exact Ho | exact Hempty].
Defined.

Lemma cell_coerced (row : list string) (n : nat) :
  match Sheet.cell row n with
  | Sheet.VBool _ => True
  | Sheet.VString s => s <> "TRUE" /\ s <> "FALSE" /\ ~ In s Sheet.Object_prototype
  | Sheet.VInherited name => In name Sheet.Object_prototype
  end.
Proof.
  unfold Sheet.cell. destruct (nth_error row n) as [c|].
  - destruct (String.eqb_spec c "") as [->|_].
    + repeat split; try discriminate. simpl. intuition discriminate.
    + unfold Sheet.boolMap.
      destruct (String.eqb_spec c "TRUE") as [|Ht]; [exact I|].
      destruct (String.eqb_spec c "FALSE") as [|Hf]; [exact I|].
      destruct (includes Sheet.Object_prototype c) eqn:Hinc.
      * now apply includes_In.
      * repeat split; try assumption. intros Hin. apply includes_In in Hin. congruence.
  - repeat split; try discriminate. simpl. intuition discriminate.
Qed.

(** X5: no field of an object of [CSV2JSON] holds the text ["TRUE"] or
    ["FALSE"]: a field is a boolean, a text other than these two, or, when
    the cell spells a member name of [Object.prototype], that member. *)
Theorem CSV2JSON_coerced (rows : list (list string)) (o : gmap string Sheet.value)
    (k : string) (v : Sheet.value) :
  In o (Sheet.CSV2JSON rows) -> o !! k = Some v ->
  match v with
  | Sheet.VBool _ => True
  | Sheet.VString s => s <> "TRUE" /\ s <> "FALSE" /\ ~ In s Sheet.Object_prototype
  | Sheet.VInherited name => In name Sheet.Object_prototype
  end.
Proof.
  destruct rows as [|headers [|row data]]; try contradiction.
  rewrite CSV2JSON_rows. intros Hin Hk.
  apply in_map_iff in Hin as (row' & <- & _).
  revert k v Hk. apply rowObject_values.
  - apply cell_coerced.
  - intros k v. rewrite lookup_empty. discriminate.
Qed.

Lemma CSV2JSON_coerced_witness :
  exists o,
    In o (Sheet.CSV2JSON [["Slug"; "CanBeLeftovers"]; ["pasta"; "TRUE"]])
    /\ o !! "Slug" = Some (Sheet.VString "pasta")
    /\ ("pasta" <> "TRUE" /\ "pasta" <> "FALSE" /\ ~ In "pasta" Sheet.Object_prototype).
Proof.
  exists (Sheet.rowObject 0 ["Slug"; "CanBeLeftovers"] ["pasta"; "TRUE"] ∅).
  assert (Hin : In (Sheet.rowObject 0 ["Slug"; "CanBeLeftovers"] ["pasta"; "TRUE"] ∅)
                   (Sheet.CSV2JSON [["Slug"; "CanBeLeftovers"]; ["pasta"; "TRUE"]]))
    by (left; reflexivity).
  assert (Hk : Sheet.rowObject 0 ["Slug"; "CanBeLeftovers"] ["pasta"; "TRUE"] ∅
                 !! "Slug" = Some (Sheet.VString "pasta"))
    by (vm_compute; reflexivity).
  split; [exact Hin|]. split; [exact Hk|].
  exact (CSV2JSON_coerced _ _ _ _ Hin Hk).
Defined.

(** ** More on the stable sort *)

Section JsSortOrder.
Context {A : Type} (cmp : A -> A -> Z).

(** Elements that compare as equal keep their order. *)
Lemma sort_insert_filter (f : A -> bool) (x : A) (l : list A) :
  (forall a b, f a = true -> f b = true -> cmp a b <= 0) ->
  List.filter f (sort_insert cmp x l) = List.filter f (x :: l).
Proof.
  intros Heq. induction l as [|y l IH]; [reflexivity|].
  cbn [sort_insert]. destruct (Z.leb_spec (cmp x y) 0) as [Hle|Hgt]; [reflexivity|].
  cbn [List.filter] in *. rewrite IH.
  destruct (f x) eqn:Hx, (f y) eqn:Hy; try reflexivity.
  specialize (Heq x y Hx Hy). lia.
Qed.

Lemma js_sort_stable (f : A -> bool) (l : list A) :
  (forall a b, f a = true -> f b = true -> cmp a b <= 0) ->
  List.filter f (js_sort cmp l) = List.filter f l.
Proof.
  intros Heq. induction l as [|x l IH]; [reflexivity|].
  cbn [js_sort fold_right]. fold (js_sort cmp l).
  rewrite (sort_insert_filter f x _ Heq). cbn [List.filter]. now rewrite IH.
Qed.

(** A sorted array is left as it is. *)
Lemma js_sort_sorted_id (l : list A) :
  StronglySorted (fun a b => cmp a b <= 0) l -> js_sort cmp l = l.
Proof.
  induction 1 as [|x l Hs IH Hx]; [reflexivity|].
  cbn [js_sort fold_right]. fold (js_sort cmp l). rewrite IH.
  destruct l as [|y l]; [reflexivity|].
  cbn [sort_insert]. inversion Hx as [|? ? Hxy _]; subst.
  destruct (Z.leb_spec (cmp x y) 0); [reflexivity | lia].
Qed.

Hypothesis cmp_trans : forall a b c, cmp a b <= 0 -> cmp b c <= 0 -> cmp a c <= 0.
Hypothesis cmp_total : forall a b, cmp a b <= 0 \/ cmp b a <= 0.

(** The first element after sorting is the first element of the array
    that no other element precedes. *)
Lemma js_sort_first (l : list A) (top : A) (rest : list A) :
  js_sort cmp l = top :: rest ->
  exists l1 l2, l = l1 ++ top :: l2
                /\ Forall (fun x => 0 < cmp x top) l1
                /\ Forall (fun x => cmp top x <= 0) l2.
Proof.
  revert top rest. induction l as [|x l IH]; intros top rest Hs; [discriminate|].
  cbn [js_sort fold_right] in Hs. fold (js_sort cmp l) in Hs.
  destruct (js_sort cmp l) as [|h t] eqn:Hl.
  - apply js_sort_nil_inv in Hl. subst l. injection Hs as <- <-.
    exists [], []. repeat split; constructor.
  - cbn [sort_insert] in Hs.
    destruct (Z.leb_spec (cmp x h) 0) as [Hle|Hgt].
    + injection Hs as <- <-. exists [], l. split; [reflexivity|]. split; [constructor|].
      apply List.Forall_forall. intros y Hy.
      destruct (js_sort_head cmp cmp_trans cmp_total h t l Hl) as [_ Hmax].
      apply cmp_trans with h; [assumption | now apply Hmax].
    + injection Hs as <- <-.
      destruct (IH h t eq_refl) as (l1 & l2 & -> & H1 & H2).
      exists (x :: l1), l2. split; [reflexivity|]. split; [|assumption].
      constructor; [lia | assumption].
Qed.
End JsSortOrder.

(** ** What the plan of [rankMeals] holds *)

Section RichEntries.
Context `{JsRuntime}.
Variables (meals : list Meal.t) (bonusProductIds : list string) (products : list Product.t).

(** Every non-null entry was committed by a day that carries its name. *)
Lemma rankLoop_entries_at (P : WeekDay.t -> Rich.RankedMeal -> Prop) :
  (forall plan day c, In c (Rich.matches meals bonusProductIds products plan day) ->
                      P day (Rich.matched c)) ->
  forall weekPlan st st',
    Rich.rankLoop meals bonusProductIds products weekPlan st = Some st' ->
    forall d m, Rich.plan st' !! d = Some (Some m) ->
      Rich.plan st !! d = Some (Some m)
      \/ exists day, In day weekPlan /\ WeekDay.Day day = d /\ P day m.
Proof.
  intros Hcommit weekPlan.
  induction weekPlan as [|day rest IH]; intros st st' Hrun d m Hd; simpl in Hrun.
  - injection Hrun as <-. now left.
  - destruct (rankDay_commits meals bonusProductIds products st day)
      as (e0 & k' & Hday & He0).
    rewrite Hday in Hrun.
    destruct (IH _ _ Hrun d m Hd) as [Hold|(day' & Hin & Hname & HP)].
    + apply commit_lookup_Some in Hold as [[Hname Hm]|Hold].
      * right. exists day. split; [now left|]. split; [exact Hname|].
        subst e0.
        destruct He0 as (c & Hc & ->). now apply Hcommit with (Rich.plan st).
      * now left.
    + right. exists day'. split; [now right | auto].
Qed.

Lemma rich_match_kept (plan : gmap string (option Rich.RankedMeal)) (day : WeekDay.t)
    (c : Rich.Match) :
  In c (Rich.matches meals bonusProductIds products plan day) ->
  exists meal,
    In meal meals
    /\ c = Rich.scoreMeal bonusProductIds day (Rich.pairWithIngredients products meal)
    /\ Rich.hasIngredients (List.filter (ownedBy meal) products) = true
    /\ isPreparationTimeValid meal day = true
    /\ isMealLeftoverValid day meal = true
    /\ Rich.isRequiredProductDiscountsValid
         (Rich.getRequiredProductsForMeal day meal (List.filter (ownedBy meal) products) true)
         bonusProductIds = true
    /\ Rich.isProductShelfLifeValid
         (Rich.getRequiredProductsForMeal day meal (List.filter (ownedBy meal) products) true)
         (WeekDay.Date day) = true.
Proof.
  intros Hin. apply rich_matches_In in Hin as (meal & Hmeal & Hkeep & ->).
  unfold Rich.keep, Rich.pairWithIngredients in Hkeep. cbv beta iota zeta in Hkeep.
  split_andb Hkeep.
  match goal with Hl : isMealLeftoverValid day meal = true |- _ => rewrite Hl in * end.
  exists meal. repeat split; assumption.
Qed.

Lemma rich_match_feasible (plan : gmap string (option Rich.RankedMeal)) (day : WeekDay.t)
    (c : Rich.Match) :
  In c (Rich.matches meals bonusProductIds products plan day) ->
  feasible meals bonusProductIds day (Rich.matched c).
Proof.
  intros Hin.
  destruct (rich_match_kept plan day c Hin)
    as (meal & Hmeal & -> & Hhas & Hprep & Hleft & Hdisc & Hshelf).
  unfold feasible, Rich.scoreMeal, Rich.pairWithIngredients.
  cbn [Rich.matched Rich.meal Rich.productsRequired]. rewrite Hleft.
  split; [exact Hmeal|]. split.
  { unfold Rich.hasIngredients in Hhas. unfold Rich.getRequiredProductsForMeal.
    destruct (List.filter (ownedBy meal) products); [discriminate Hhas | discriminate]. }
  split; [unfold isPreparationTimeValid in Hprep; lia|]. split.
  { intros Hsun. unfold isMealLeftoverValid in Hleft. rewrite Hsun in Hleft.
    simpl in Hleft. apply andb_true_iff in Hleft as [Hpos Hcan]. split; [lia | exact Hcan]. }
  split; [now apply rich_discounts_valid_iff|].
  split; [now apply rich_isProductShelfLifeValid_iff|].
  intros p Hp. unfold Rich.getRequiredProductsForMeal in Hp.
  apply in_map_iff in Hp as (p0 & <- & Hp0). apply filter_In in Hp0 as [_ Hown].
  now apply String.eqb_eq in Hown.
Qed.

Lemma rich_match_enriched (plan : gmap string (option Rich.RankedMeal)) (day : WeekDay.t)
    (c : Rich.Match) :
  In c (Rich.matches meals bonusProductIds products plan day) ->
  enriched bonusProductIds products day (Rich.matched c).
Proof.
  intros Hin.
  destruct (rich_match_kept plan day c Hin) as (meal & _ & -> & _ & _ & Hleft & _).
  unfold enriched, Rich.scoreMeal, Rich.pairWithIngredients.
  cbn [Rich.matched Rich.meal Rich.productsRequired Rich.productsDiscounted
       Rich.shoppingList]. rewrite Hleft.
  repeat split. intros Hn.
  destruct (Math_ceil_div_pos
              (WeekDay.NumberOfPeople day + WeekDay.NumberOfPeopleLeftovers day)
              (Meal.NumberOfPeople meal) Hn) as (k & Hk & Hbounds).
  exists k. split; [exact Hbounds|].
  unfold Rich.getRequiredProductsForMeal, multiplier. now rewrite Hk.
Qed.
End RichEntries.

(** X6: [isNotInPlan] is true exactly when no day of the plan holds a
    non-null meal with the slug of the given meal; null entries do not count. *)
Theorem isNotInPlan_iff (meal : Meal.t) (plan : gmap string (option Rich.RankedMeal)) :
  (Rich.isNotInPlan meal plan = true
   <-> forall d m, plan !! d = Some (Some m) -> Meal.Slug (Rich.meal m) <> Meal.Slug meal)
  /\ (forall d, Rich.isNotInPlan meal (<[d := None]> plan) = true
                <-> Rich.isNotInPlan meal (delete d plan) = true).
Proof.
  split; [apply isNotInPlan_spec|].
  intros d. rewrite !isNotInPlan_spec. split; intros Hall d' m Hd'.
  - apply lookup_delete_Some in Hd' as [Hne Hd'].
    apply (Hall d'). now rewrite lookup_insert_ne.
  - apply lookup_insert_Some in Hd' as [[_ ?]|[Hne Hd']]; [discriminate|].
    apply (Hall d'). now rewrite lookup_delete_ne.
Qed.

(** X7: every meal in the plan of [rankMeals] was committed by a day of the
    week that carries the entry's name, and for that day it passes the
    filter: it is a meal of the catalogue with at least one product, its
    preparation time fits the day, on Sunday it can be left over and there is
    somebody to eat the leftovers, each of its products that requires a
    discount is discounted, each has no shelf life or one that reaches the
    day, and each is a product of that meal. *)
Theorem rankMeals_committed_feasible `{JsRuntime} (meals : list Meal.t)
    (bonusProductIds : list string) (products : list Product.t)
    (weekPlan : list WeekDay.t) (plan : gmap string (option Rich.RankedMeal))
    (d : string) (m : Rich.RankedMeal) :
  Rich.rankMeals meals bonusProductIds products weekPlan = Some plan ->
  plan !! d = Some (Some m) ->
  exists day, In day weekPlan /\ WeekDay.Day day = d
              /\ feasible meals bonusProductIds day m.
Proof.
  unfold Rich.rankMeals. fold initial.
  destruct (Rich.rankLoop meals bonusProductIds products weekPlan initial) as [st|] eqn:Hrun;
    [|discriminate].
  intros [= <-] Hd.
  destruct (rankLoop_entries_at meals bonusProductIds products
              (feasible meals bonusProductIds)
              (rich_match_feasible meals bonusProductIds products)
              weekPlan initial st Hrun d m Hd) as [Hold|Hday]; [|exact Hday].
  simpl in Hold. rewrite lookup_empty in Hold. discriminate.
Qed.

(** X8: a meal in the plan of [rankMeals] carries the products of the
    catalogue that belong to it, resolved for the day that committed it and
    always with the leftover flag set, so scaled by the ceiling of the day's
    head count plus leftover head count over the meal's [NumberOfPeople]; its
    discounted list holds the URLs of those products whose identifier is in
    the bonus list, and its shopping list is built from those products. *)
Theorem rankMeals_committed_enriched `{JsRuntime} (meals : list Meal.t)
    (bonusProductIds : list string) (products : list Product.t)
    (weekPlan : list WeekDay.t) (plan : gmap string (option Rich.RankedMeal))
    (d : string) (m : Rich.RankedMeal) :
  Rich.rankMeals meals bonusProductIds products weekPlan = Some plan ->
  plan !! d = Some (Some m) ->
  exists day, In day weekPlan /\ WeekDay.Day day = d
              /\ enriched bonusProductIds products day m.
Proof.
  unfold Rich.rankMeals. fold initial.
  destruct (Rich.rankLoop meals bonusProductIds products weekPlan initial) as [st|] eqn:Hrun;
    [|discriminate].
  intros [= <-] Hd.
  destruct (rankLoop_entries_at meals bonusProductIds products
              (enriched bonusProductIds products)
              (rich_match_enriched meals bonusProductIds products)
              weekPlan initial st Hrun d m Hd) as [Hold|Hday]; [|exact Hday].
  simpl in Hold. rewrite lookup_empty in Hold. discriminate.
Qed.

Lemma rankMeals_committed_feasible_witness :
  exists plan m,
    Rich.rankMeals [Ex.pasta; Ex.curry] ["1525"] [Ex.tomatoes; Ex.spaghetti; Ex.rice]
      [Ex.monday; Ex.thursday] = Some plan
    /\ plan !! "Monday" = Some (Some m)
    /\ Rich.meal m = Ex.pasta
    /\ exists day, In day [Ex.monday; Ex.thursday] /\ WeekDay.Day day = "Monday"
                   /\ feasible [Ex.pasta; Ex.curry] ["1525"] day m.
Proof.
  destruct (Rich.rankMeals [Ex.pasta; Ex.curry] ["1525"]
              [Ex.tomatoes; Ex.spaghetti; Ex.rice] [Ex.monday; Ex.thursday])
    as [plan|] eqn:Hrun; [|vm_compute in Hrun; discriminate].
  assert (Hlook : Rich.rankMeals [Ex.pasta; Ex.curry] ["1525"]
                    [Ex.tomatoes; Ex.spaghetti; Ex.rice] [Ex.monday; Ex.thursday]
                    ≫= (fun plan => plan !! "Monday")
                  = Some (Some (Rich.matched
                                  (Rich.scoreMeal ["1525"] Ex.monday
                                     (Rich.pairWithIngredients
                                        [Ex.tomatoes; Ex.spaghetti; Ex.rice] Ex.pasta)))))
    by (vm_compute; reflexivity).
  rewrite Hrun in Hlook. simpl in Hlook.
  exists plan. eexists. split; [reflexivity|]. split; [exact Hlook|].
  split; [reflexivity|].
  exact (rankMeals_committed_feasible _ _ _ _ _ _ _ Hrun Hlook).
Defined.

Lemma rankMeals_committed_enriched_witness :
  exists plan m,
    Rich.rankMeals [Ex.pasta; Ex.curry] ["1525"] [Ex.tomatoes; Ex.spaghetti; Ex.rice]
      [Ex.monday; Ex.thursday] = Some plan
    /\ plan !! "Monday" = Some (Some m)
    /\ map Product.Quantity (Rich.productsRequired m) = [Num 6; Num 2]
    /\ exists day, In day [Ex.monday; Ex.thursday] /\ WeekDay.Day day = "Monday"
                   /\ enriched ["1525"] [Ex.tomatoes; Ex.spaghetti; Ex.rice] day m.
Proof.
  destruct (Rich.rankMeals [Ex.pasta; Ex.curry] ["1525"]
              [Ex.tomatoes; Ex.spaghetti; Ex.rice] [Ex.monday; Ex.thursday])
    as [plan|] eqn:Hrun; [|vm_compute in Hrun; discriminate].
  assert (Hlook : Rich.rankMeals [Ex.pasta; Ex.curry] ["1525"]
                    [Ex.tomatoes; Ex.spaghetti; Ex.rice] [Ex.monday; Ex.thursday]
                    ≫= (fun plan => plan !! "Monday")
                  = Some (Some (Rich.matched
                                  (Rich.scoreMeal ["1525"] Ex.monday
                                     (Rich.pairWithIngredients
                                        [Ex.tomatoes; Ex.spaghetti; Ex.rice] Ex.pasta)))))
    by (vm_compute; reflexivity).
  rewrite Hrun in Hlook. simpl in Hlook.
  exists plan. eexists. split; [reflexivity|]. split; [exact Hlook|].
  split; [vm_compute; reflexivity|].
  exact (rankMeals_committed_enriched _ _ _ _ _ _ _ Hrun Hlook).
Defined.

(** ** Which survivor is first *)

Lemma candidates_order (meals : list Meal.t) (products : list Product.t) :
  StronglySorted (fun a b => Meal.PreparationTimeMinutes (fst b)
                             <= Meal.PreparationTimeMinutes (fst a))
    (candidates meals products)
  /\ forall t,
       List.filter (fun c => Meal.PreparationTimeMinutes (fst c) =? t)
                   (candidates meals products)
       = List.filter (fun c => Meal.PreparationTimeMinutes (fst c) =? t)
                     (map (Rich.pairWithIngredients products) meals).
Proof.
  unfold candidates. split.
  - eapply StronglySorted_weaken; [|apply js_sort_sorted; intros; lia].
    intros a b Hab. simpl in Hab. lia.
  - intros t. apply js_sort_stable. intros a b Ha Hb. simpl. lia.
Qed.

(** X9: when the best score of a day is not zero, [rankMeals] commits, without
    calling [Math.random], the first of the day's survivors that reaches that
    score; the survivors stand in order of descending preparation time, meals
    of equal preparation time in the order of the catalogue. *)
Theorem rankDay_top_choice `{JsRuntime} (meals : list Meal.t)
    (bonusProductIds : list string) (products : list Product.t)
    (st : Rich.RankState) (day : WeekDay.t) (top : Rich.Match) (rest : list Rich.Match) :
  Rich.matches meals bonusProductIds products (Rich.plan st) day = top :: rest ->
  Rich.score top <> 0 ->
  Rich.rankDay meals bonusProductIds products st day
  = Some (Rich.commit st (WeekDay.Day day) (Some (Rich.matched top))
            (Rich.randomCalls st))
  /\ (exists l1 l2,
         survivors meals bonusProductIds products (Rich.plan st) day = l1 ++ top :: l2
         /\ Forall (fun c => Rich.score c < Rich.score top) l1
         /\ Forall (fun c => Rich.score c <= Rich.score top) l2)
  /\ StronglySorted (fun a b => Meal.PreparationTimeMinutes (fst b)
                                <= Meal.PreparationTimeMinutes (fst a))
       (candidates meals products)
  /\ forall t,
       List.filter (fun c => Meal.PreparationTimeMinutes (fst c) =? t)
                   (candidates meals products)
       = List.filter (fun c => Meal.PreparationTimeMinutes (fst c) =? t)
                     (map (Rich.pairWithIngredients products) meals).
Proof.
  intros Hms Hnz. split; [|split; [|apply candidates_order]].
  - unfold Rich.rankDay. rewrite Hms. cbv zeta.
    destruct (Z.eqb_spec (Rich.score top) 0); [contradiction | reflexivity].
  - change (Rich.matches meals bonusProductIds products (Rich.plan st) day)
      with (js_sort (fun a b => Rich.score b - Rich.score a)
              (survivors meals bonusProductIds products (Rich.plan st) day)) in Hms.
    apply js_sort_first in Hms as (l1 & l2 & Hsplit & H1 & H2); try (intros; lia).
    exists l1, l2. split; [exact Hsplit|]. split.
    + eapply List.Forall_impl; [|exact H1]. intros c Hc. simpl in Hc. lia.
    + eapply List.Forall_impl; [|exact H2]. intros c Hc. simpl in Hc. lia.
Qed.

Lemma rankDay_top_choice_witness :
  Rich.matches [Ex.pasta; Ex.curry] ["1525"] [Ex.tomatoes; Ex.spaghetti; Ex.rice]
    (Rich.plan initial) Ex.monday
  = [Rich.scoreMeal ["1525"] Ex.monday
       (Rich.pairWithIngredients [Ex.tomatoes; Ex.spaghetti; Ex.rice] Ex.pasta);
     Rich.scoreMeal ["1525"] Ex.monday
       (Rich.pairWithIngredients [Ex.tomatoes; Ex.spaghetti; Ex.rice] Ex.curry)]
  /\ Rich.score (Rich.scoreMeal ["1525"] Ex.monday
                   (Rich.pairWithIngredients [Ex.tomatoes; Ex.spaghetti; Ex.rice] Ex.pasta))
     <> 0
  /\ exists st',
       Rich.rankDay [Ex.pasta; Ex.curry] ["1525"] [Ex.tomatoes; Ex.spaghetti; Ex.rice]
         initial Ex.monday = Some st'
       /\ Rich.randomCalls st' = 0%nat.
Proof.
  assert (Hms : Rich.matches [Ex.pasta; Ex.curry] ["1525"]
                  [Ex.tomatoes; Ex.spaghetti; Ex.rice] (Rich.plan initial) Ex.monday
                = [Rich.scoreMeal ["1525"] Ex.monday
                     (Rich.pairWithIngredients [Ex.tomatoes; Ex.spaghetti; Ex.rice] Ex.pasta);
                   Rich.scoreMeal ["1525"] Ex.monday
                     (Rich.pairWithIngredients [Ex.tomatoes; Ex.spaghetti; Ex.rice] Ex.curry)])
    by (vm_compute; reflexivity).
  assert (Hnz : Rich.score (Rich.scoreMeal ["1525"] Ex.monday
                              (Rich.pairWithIngredients
                                 [Ex.tomatoes; Ex.spaghetti; Ex.rice] Ex.pasta)) <> 0)
    by (vm_compute; discriminate).
  split; [exact Hms|]. split; [exact Hnz|].
  destruct (rankDay_top_choice _ _ _ initial Ex.monday _ _ Hms Hnz) as [Hrun _].
  eexists. split; [exact Hrun | reflexivity].
Defined.

(** ** The entries of [matchMeals] *)

Section StrictEntries.
Context `{JsRuntime}.
Variables (meals : list Meal.t) (bonusProductIds : list string) (products : list Product.t).

Lemma strict_matches_nil (day : WeekDay.t) :
  Strict.matches meals bonusProductIds products day = []
  <-> forall m, In m meals -> Strict.keep bonusProductIds products day m = false.
Proof.
  unfold Strict.matches. split.
  - intros Hnil m Hm. apply js_sort_nil_inv in Hnil. apply map_eq_nil in Hnil.
    destruct (Strict.keep bonusProductIds products day m) eqn:Hk; [|reflexivity].
    assert (Hin : In m (List.filter (Strict.keep bonusProductIds products day) meals))
      by (apply filter_In; auto).
    rewrite Hnil in Hin. destruct Hin.
  - intros Hnone.
    assert (Hf : List.filter (Strict.keep bonusProductIds products day) meals = []).
    { destruct (List.filter _ meals) as [|m l] eqn:Hf; [reflexivity|].
      assert (Hin : In m (List.filter (Strict.keep bonusProductIds products day) meals))
        by (rewrite Hf; now left).
      apply filter_In in Hin as [Hm Hk]. rewrite (Hnone m Hm) in Hk. discriminate. }
    now rewrite Hf.
Qed.

Lemma strict_matches_first (day : WeekDay.t) (top : Meal.t * Z) (rest : list (Meal.t * Z)) :
  Strict.matches meals bonusProductIds products day = top :: rest ->
  exists l1 l2,
    List.filter (Strict.keep bonusProductIds products day) meals = l1 ++ fst top :: l2
    /\ Forall (fun x => snd (Strict.score bonusProductIds products day x)
                        < snd (Strict.score bonusProductIds products day (fst top))) l1
    /\ Forall (fun x => snd (Strict.score bonusProductIds products day x)
                        <= snd (Strict.score bonusProductIds products day (fst top))) l2.
Proof.
  unfold Strict.matches. intros Hms.
  apply js_sort_first in Hms as (s1 & s2 & Hsplit & H1 & H2); try (intros; lia).
  apply map_eq_app in Hsplit as (l1 & l2' & Hkept & <- & Hs2).
  apply map_eq_cons in Hs2 as (m & l2 & -> & <- & <-).
  exists l1, l2. split; [exact Hkept|].
  rewrite List.Forall_map in H1, H2. cbn [fst Strict.score] in *. split.
  - eapply List.Forall_impl; [|exact H1]. intros x Hx. simpl in Hx |- *. lia.
  - eapply List.Forall_impl; [|exact H2]. intros x Hx. simpl in Hx |- *. lia.
Qed.
End StrictEntries.

(** X10: [matchMeals] returns one entry per day, at the day's position.
    The entry is null exactly when no meal of the catalogue passes the strict
    filter for that day; otherwise it is the first meal, in catalogue order,
    among those that pass with the highest score. *)
Theorem strict_matchMeals_entries `{JsRuntime} (meals : list Meal.t)
    (bonusProductIds : list string) (products : list Product.t)
    (weekPlan : list WeekDay.t) :
  length (Strict.matchMeals meals bonusProductIds products weekPlan) = length weekPlan
  /\ forall i day,
       nth_error weekPlan i = Some day ->
       exists e,
         nth_error (Strict.matchMeals meals bonusProductIds products weekPlan) i = Some e
         /\ (e = None
             <-> forall m, In m meals ->
                           Strict.keep bonusProductIds products day m = false)
         /\ forall m, e = Some m ->
              exists l1 l2,
                List.filter (Strict.keep bonusProductIds products day) meals
                = l1 ++ m :: l2
                /\ Forall (fun x => snd (Strict.score bonusProductIds products day x)
                                    < snd (Strict.score bonusProductIds products day m)) l1
                /\ Forall (fun x => snd (Strict.score bonusProductIds products day x)
                                    <= snd (Strict.score bonusProductIds products day m)) l2.
Proof.
  split; [unfold Strict.matchMeals; apply length_map|].
  intros i day Hday. unfold Strict.matchMeals.
  rewrite nth_error_map, Hday. cbn [option_map].
  destruct (Strict.matches meals bonusProductIds products day) as [|top rest] eqn:Hms.
  - exists None. split; [reflexivity|]. split; [|discriminate].
    split; [intros _; now apply strict_matches_nil | reflexivity].
  - exists (Some (fst top)). split; [reflexivity|]. split.
    + split; [discriminate|]. intros Hnone.
      apply strict_matches_nil in Hnone. congruence.
    + intros m [= <-]. now apply strict_matches_first with rest.
Qed.

Lemma strict_matchMeals_entries_witness :
  nth_error [Ex.monday; Ex.thursday] 1 = Some Ex.thursday
  /\ exists e,
       nth_error (Strict.matchMeals [Ex.pasta; Ex.curry] [] [Ex.tomatoes; Ex.rice]
                    [Ex.monday; Ex.thursday]) 1 = Some e
       /\ (e = None
           <-> forall m, In m [Ex.pasta; Ex.curry] ->
                         Strict.keep [] [Ex.tomatoes; Ex.rice] Ex.thursday m = false).
Proof.
  assert (Hday : nth_error [Ex.monday; Ex.thursday] 1 = Some Ex.thursday) by reflexivity.
  split; [exact Hday|].
  destruct (proj2 (strict_matchMeals_entries [Ex.pasta; Ex.curry] []
                     [Ex.tomatoes; Ex.rice] [Ex.monday; Ex.thursday]) 1%nat Ex.thursday Hday)
    as (e & He & Hnone & _).
  exists e. split; [exact He | exact Hnone].
Defined.

(** X11: a meal that [matchMeals] returns at the position of a day is a meal
    of the catalogue whose preparation time fits the day, that on Sunday can
    be left over with somebody to eat the leftovers, every product of which
    has a shelf life that reaches the day, and one product of which is marked
    [IsBonusRequired] and is not in the bonus list. *)
Theorem strict_matchMeals_committed_at `{JsRuntime} (meals : list Meal.t)
    (bonusProductIds : list string) (products : list Product.t)
    (weekPlan : list WeekDay.t) (i : nat) (day : WeekDay.t) (m : Meal.t) :
  nth_error weekPlan i = Some day ->
  nth_error (Strict.matchMeals meals bonusProductIds products weekPlan) i = Some (Some m) ->
  In m meals
  /\ Meal.PreparationTimeMinutes m <= WeekDay.MaxPreparationTime day
  /\ (WeekDay.Day day = "Sunday" ->
      0 < WeekDay.NumberOfPeopleLeftovers day /\ Meal.CanBeLeftovers m = true)
  /\ (forall p, In p products -> Product.Meal p = Meal.Slug m ->
        exists s dn, Product.MaxShelfLifeInDays p = Some s
                     /\ dayInWeek (WeekDay.Date day) = Some dn
                     /\ s >= dn - 2)
  /\ exists p, In p products /\ Product.Meal p = Meal.Slug m
               /\ Product.IsBonusRequired p = true
               /\ ~ In (Product.ID p) bonusProductIds.
Proof.
  intros Hday. unfold Strict.matchMeals. rewrite nth_error_map, Hday. cbn [option_map].
  destruct (Strict.matches meals bonusProductIds products day) as [|top rest] eqn:Hms;
    [discriminate|].
  intros [= <-].
  destruct (strict_matches_In meals bonusProductIds products day top) as [Hin Hkeep].
  { rewrite Hms. now left. }
  unfold Strict.keep in Hkeep. cbv zeta in Hkeep. split_andb Hkeep.
  unfold isPreparationTimeValid in Hkeep.
  split; [exact Hin|]. split; [lia|]. split; [|split].
  - intros Hsun.
    match goal with
    | Hl : isMealLeftoverValid day _ = true |- _ =>
        unfold isMealLeftoverValid in Hl; rewrite Hsun in Hl; simpl in Hl;
        apply andb_true_iff in Hl as [Hpos Hcan]
    end.
    split; [lia | exact Hcan].
  - intros p Hp Hown.
    match goal with
    | Hs : Strict.isProductShelfLifeValid _ _ = true |- _ =>
        pose proof (proj1 (strict_isProductShelfLifeValid_iff _ _) Hs) as Hshelf
    end.
    destruct (Hshelf (Product.withQuantity p
                        (number_mul (Product.Quantity p)
                           (multiplier day (fst top) (isMealLeftoverValid day (fst top))))))
      as (s & dn & Hs & Hdn & Hge).
    { unfold Strict.getRequiredProductsForMeal. apply in_map_iff.
      exists p. split; [reflexivity|]. apply filter_In.
      split; [exact Hp | now apply String.eqb_eq]. }
    exists s, dn. auto.
  - match goal with
    | Hd : Strict.isRequiredProductDiscountsValid _ _ = true |- _ =>
        unfold Strict.isRequiredProductDiscountsValid in Hd;
        apply existsb_exists in Hd as (p' & Hin' & Hp')
    end.
    unfold Strict.getRequiredProductsForMeal in Hin'.
    apply in_map_iff in Hin' as (p & <- & Hp). apply filter_In in Hp as [Hp Hown].
    apply andb_true_iff in Hp' as [Hreq Hmiss]. simpl in Hreq, Hmiss.
    exists p. split; [exact Hp|]. split; [now apply String.eqb_eq|].
    split; [exact Hreq|].
    intros Hbonus. apply includes_In in Hbonus. rewrite Hbonus in Hmiss. discriminate.
Qed.

Lemma strict_matchMeals_committed_at_witness :
  nth_error [Ex.monday] 0 = Some Ex.monday
  /\ nth_error (Strict.matchMeals [Ex.pasta] [] [Ex.tomatoes] [Ex.monday]) 0
     = Some (Some Ex.pasta)
  /\ In Ex.pasta [Ex.pasta]
  /\ Meal.PreparationTimeMinutes Ex.pasta <= WeekDay.MaxPreparationTime Ex.monday.
Proof.
  assert (Hday : nth_error [Ex.monday] 0 = Some Ex.monday) by reflexivity.
  assert (Hm : nth_error (Strict.matchMeals [Ex.pasta] [] [Ex.tomatoes] [Ex.monday]) 0
               = Some (Some Ex.pasta)) by (vm_compute; reflexivity).
  split; [exact Hday|]. split; [exact Hm|].
  destruct (strict_matchMeals_committed_at [Ex.pasta] [] [Ex.tomatoes] [Ex.monday]
              0 Ex.monday Ex.pasta Hday Hm) as (Hin & Hprep & _).
  split; [exact Hin | exact Hprep].
Defined.

(** ** More on sorting the week *)

(** X12: [sortWeekByPreparationTime] keeps days of equal [MaxPreparationTime]
    in the order they had, leaves a week that is already ascending as it is,
    and sorting a second time changes nothing. *)
Theorem sortWeekByPreparationTime_stable (Week : nat) (s : list (list WeekDay.t))
    (days : list WeekDay.t) :
  s !! Week = Some days ->
  exists sorted,
    snd (Store.sortWeekByPreparationTime Week s) !! Week = Some sorted
    /\ (forall t, List.filter (fun d => WeekDay.MaxPreparationTime d =? t) sorted
                  = List.filter (fun d => WeekDay.MaxPreparationTime d =? t) days)
    /\ Store.sortWeekByPreparationTime Week (snd (Store.sortWeekByPreparationTime Week s))
       = Store.sortWeekByPreparationTime Week s
    /\ (StronglySorted (fun a b => WeekDay.MaxPreparationTime a
                                   <= WeekDay.MaxPreparationTime b) days ->
        snd (Store.sortWeekByPreparationTime Week s) = s).
Proof.
  intros Hdays.
  set (cmp := fun a b : WeekDay.t =>
                WeekDay.MaxPreparationTime a - WeekDay.MaxPreparationTime b).
  assert (Hlen : (Week < length s)%nat) by (eapply lookup_lt_Some; eassumption).
  assert (Hsnd : snd (Store.sortWeekByPreparationTime Week s)
                 = <[Week := js_sort cmp days]> s).
  { unfold Store.sortWeekByPreparationTime. now rewrite Hdays. }
  assert (Hread : <[Week := js_sort cmp days]> s !! Week = Some (js_sort cmp days))
    by now apply list_lookup_insert_eq.
  assert (Hsorted : StronglySorted (fun a b => cmp a b <= 0) (js_sort cmp days))
    by (apply js_sort_sorted; unfold cmp; intros; lia).
  exists (js_sort cmp days). rewrite Hsnd.
  split; [exact Hread|]. split; [|split].
  - intros t. apply js_sort_stable. unfold cmp. intros a b Ha Hb. lia.
  - unfold Store.sortWeekByPreparationTime. rewrite Hread, Hdays. fold cmp.
    rewrite (js_sort_sorted_id cmp _ Hsorted). now rewrite list_insert_insert_eq.
  - intros Hasc. rewrite js_sort_sorted_id; [now apply list_insert_id|].
    eapply StronglySorted_weaken; [|exact Hasc]. unfold cmp. intros a b. lia.
Qed.

Lemma sortWeekByPreparationTime_stable_witness :
  [[Ex.monday; Ex.thursday; Ex.sunday]] !! 0%nat = Some [Ex.monday; Ex.thursday; Ex.sunday]
  /\ Store.sortWeekByPreparationTime 0
       (snd (Store.sortWeekByPreparationTime 0 [[Ex.monday; Ex.thursday; Ex.sunday]]))
     = Store.sortWeekByPreparationTime 0 [[Ex.monday; Ex.thursday; Ex.sunday]].
Proof.
  assert (Hdays : [[Ex.monday; Ex.thursday; Ex.sunday]] !! 0%nat
                  = Some [Ex.monday; Ex.thursday; Ex.sunday]) by reflexivity.
  split; [exact Hdays|].
  destruct (sortWeekByPreparationTime_stable 0 _ _ Hdays) as (sorted & _ & _ & Hidem & _).
  exact Hidem.
Defined.

(** ** Quantities of a meal for nobody *)

Lemma number_mul_not_finite (q k : number) :
  (forall z, k <> Num z) -> forall z, number_mul q k <> Num z.
Proof.
  intros Hk z. destruct q as [a| |s], k as [b| |t]; simpl; try discriminate.
  - now contradiction (Hk b).
  - destruct (a =? 0); discriminate.
  - now contradiction (Hk b).
Qed.

(** X13: for a meal whose [NumberOfPeople] is zero the resolver of either
    revision returns no finite quantity (each is [NaN] or infinite), with
    or without the leftover flag; for any other [NumberOfPeople] an integer
    quantity stays an integer. *)
Theorem getRequiredProductsForMeal_zero_people (day : WeekDay.t) (meal : Meal.t)
    (ingredients : list Product.t) (f : bool) :
  (Meal.NumberOfPeople meal = 0 ->
   forall p, In p (Rich.getRequiredProductsForMeal day meal ingredients f)
             \/ In p (Strict.getRequiredProductsForMeal day meal ingredients f) ->
             forall z, Product.Quantity p <> Num z)
  /\ (Meal.NumberOfPeople meal <> 0 ->
      exists k, multiplier day meal f = Num k
                /\ Rich.getRequiredProductsForMeal day meal ingredients f
                   = map (scaled k) ingredients
                /\ Strict.getRequiredProductsForMeal day meal ingredients f
                   = map (scaled k) (List.filter (ownedBy meal) ingredients)).
Proof.
  split.
  - intros Hzero p Hp z.
    assert (Hk : forall z, multiplier day meal f <> Num z).
    { intros z'. unfold multiplier, Math_ceil_div. rewrite Hzero. simpl.
      destruct f; [|discriminate].
      destruct (_ =? 0); discriminate. }
    assert (Hq : exists p0, p = Product.withQuantity p0
                                  (number_mul (Product.Quantity p0) (multiplier day meal f))).
    { destruct Hp as [Hp|Hp];
        [unfold Rich.getRequiredProductsForMeal in Hp
        |unfold Strict.getRequiredProductsForMeal in Hp];
        apply in_map_iff in Hp as (p0 & <- & _); eauto. }
    destruct Hq as [p0 ->]. simpl. now apply number_mul_not_finite.
  - intros Hnz. unfold Rich.getRequiredProductsForMeal, Strict.getRequiredProductsForMeal.
    unfold multiplier, Math_ceil_div.
    destruct (Z.eqb_spec (Meal.NumberOfPeople meal) 0) as [|_]; [contradiction|].
    eexists. split; [reflexivity|]. split; reflexivity.
Qed.

Lemma getRequiredProductsForMeal_zero_people_witness :
  let nobody := {| Meal.Slug := "pasta"; Meal.Meal := "Pasta";
                   Meal.PreparationTimeMinutes := 15; Meal.CanBeLeftovers := true;
                   Meal.NumberOfPeople := 0 |} in
  Meal.NumberOfPeople nobody = 0
  /\ map Product.Quantity
       (Rich.getRequiredProductsForMeal Ex.monday nobody [Ex.tomatoes] true)
     = [Infinity false]
  /\ forall p, In p (Rich.getRequiredProductsForMeal Ex.monday nobody [Ex.tomatoes] true) ->
               forall z, Product.Quantity p <> Num z.
Proof.
  intros nobody.
  assert (Hzero : Meal.NumberOfPeople nobody = 0) by reflexivity.
  split; [exact Hzero|]. split; [reflexivity|].
  intros p Hp.
  exact (proj1 (getRequiredProductsForMeal_zero_people Ex.monday nobody [Ex.tomatoes] true)
           Hzero p (or_introl Hp)).
Defined.

(** ** No meals, no days *)

(** X15: with an empty catalogue of meals [rankMeals] returns a plan that
    has a null entry for every day name other than [__proto__], no entry
    for a name that no day has and only null entries, and [matchMeals]
    returns null at every position; with an empty week [rankMeals] returns
    the empty plan and [matchMeals] the empty array. *)
Theorem no_meals_no_days `{JsRuntime} (meals : list Meal.t)
    (bonusProductIds : list string) (products : list Product.t)
    (weekPlan : list WeekDay.t) :
  (exists plan,
      Rich.rankMeals [] bonusProductIds products weekPlan = Some plan
      /\ forall d, (In d (map WeekDay.Day weekPlan) -> d <> "__proto__" ->
                    plan !! d = Some None)
                   /\ (~ In d (map WeekDay.Day weekPlan) -> plan !! d = None)
                   /\ (forall e, plan !! d = Some e -> e = None))
  /\ Strict.matchMeals [] bonusProductIds products weekPlan
     = map (fun _ => None) weekPlan
  /\ Rich.rankMeals meals bonusProductIds products [] = Some ∅
  /\ Strict.matchMeals meals bonusProductIds products [] = [].
Proof.
  split; [|repeat split].
  destruct (rankLoop_total [] bonusProductIds products weekPlan initial) as [st Hst].
  exists (Rich.plan st). split; [unfold Rich.rankMeals; fold initial; now rewrite Hst|].
  intros d.
  pose proof (rankLoop_keys [] bonusProductIds products weekPlan initial st d Hst) as Hkeys.
  simpl in Hkeys. rewrite lookup_empty in Hkeys. destruct Hkeys as [Hkeys1 Hkeys2].
  split; [|split].
  - intros Hin Hname.
    destruct (Hkeys2 (or_intror (conj Hin Hname))) as [e He]. rewrite He. f_equal.
    apply (rankLoop_entries [] bonusProductIds products (fun e => e = None))
      with (weekPlan := weekPlan) (st := initial) (st' := st) (d := d); auto.
    + intros plan day c Hc. apply rich_matches_In in Hc as (meal & [] & _).
    + intros d' e'. simpl. rewrite lookup_empty. discriminate.
  - intros Hnot. destruct (Rich.plan st !! d) as [e|] eqn:He; [|reflexivity].
    destruct (Hkeys1 (ex_intro _ e eq_refl)) as [[? Hn]|Hin];
      [discriminate | contradiction].
  - intros e He.
    apply (rankLoop_entries [] bonusProductIds products (fun e => e = None))
      with (weekPlan := weekPlan) (st := initial) (st' := st) (d := d); auto.
    + intros plan day c Hc. apply rich_matches_In in Hc as (meal & [] & _).
    + intros d' e'. simpl. rewrite lookup_empty. discriminate.
Qed.

Lemma no_meals_no_days_witness :
  In "Monday" (map WeekDay.Day [Ex.monday; Ex.thursday])
  /\ "Monday" <> "__proto__"
  /\ exists plan,
       Rich.rankMeals [] ["1525"] [Ex.tomatoes] [Ex.monday; Ex.thursday] = Some plan
       /\ plan !! "Monday" = Some None.
Proof.
  assert (Hin : In "Monday" (map WeekDay.Day [Ex.monday; Ex.thursday])) by (now left).
  assert (Hname : "Monday" <> "__proto__") by discriminate.
  split; [exact Hin|]. split; [exact Hname|].
  destruct (proj1 (no_meals_no_days [] ["1525"] [Ex.tomatoes] [Ex.monday; Ex.thursday]))
    as (plan & Hrun & Hkeys).
  exists plan. split; [exact Hrun | exact (proj1 (Hkeys "Monday") Hin Hname)].
Defined.

(** ** What a shopping list determines *)

Lemma append_nil_l (s : string) : EmptyString +:+ s = s.
Proof. reflexivity. Qed.

Lemma append_cons_l (c : ascii) (a s : string) : String c a +:+ s = String c (a +:+ s).
Proof. reflexivity. Qed.

Lemma avoids_colon_uint (d : Decimal.uint) :
  avoids ":" (NilEmpty.string_of_uint d) = true.
Proof. induction d; simpl; auto. Qed.

Lemma avoids_colon_nilzero (d : Decimal.uint) :
  avoids ":" (NilZero.string_of_uint d) = true.
Proof.
  destruct d; try reflexivity;
    match goal with
    | |- avoids _ (NilZero.string_of_uint ?x) = true => exact (avoids_colon_uint x)
    end.
Qed.

Lemma number_toString_avoids (q : number) : avoids ":" (number_toString q) = true.
Proof.
  destruct q as [z| |[|]]; try reflexivity.
  unfold number_toString, NilZero.string_of_int.
  destruct (Z.to_int z) as [d|d]; [apply avoids_colon_nilzero|].
  cbn [avoids]. now rewrite avoids_colon_nilzero.
Qed.

Lemma to_int_proper (z : Z) :
  Z.to_int z <> Decimal.Pos Decimal.Nil /\ Z.to_int z <> Decimal.Neg Decimal.Nil.
Proof.
  destruct z as [|p|p]; simpl; split; try discriminate;
    intros [= Hp]; exact (Stdlib.Numbers.DecimalPos.Unsigned.to_uint_nonnil p Hp).
Qed.

Lemma int_of_number_toString (z : Z) :
  NilZero.int_of_string (number_toString (Num z)) = Some (Z.to_int z).
Proof. destruct (to_int_proper z). now apply NilZero.isi. Qed.

Lemma number_toString_inj (q q' : number) :
  number_toString q = number_toString q' -> q = q'.
Proof.
  intros Heq.
  destruct q as [z| |[|]], q' as [z'| |[|]]; try reflexivity; try discriminate Heq;
    try (apply (f_equal NilZero.int_of_string) in Heq;
         rewrite int_of_number_toString in Heq; discriminate Heq);
    try (apply (f_equal NilZero.int_of_string) in Heq; symmetry in Heq;
         rewrite int_of_number_toString in Heq; discriminate Heq).
  apply (f_equal NilZero.int_of_string) in Heq.
  rewrite !int_of_number_toString in Heq. injection Heq as Heq.
  f_equal. rewrite <- (Stdlib.Numbers.DecimalZ.of_to z), <- (Stdlib.Numbers.DecimalZ.of_to z'). now rewrite Heq.
Qed.

(** A text [id:quantity] splits at its last colon. *)
Lemma colon_split (a a' s s' : string) :
  avoids ":" s = true -> avoids ":" s' = true ->
  a +:+ String ":" s = a' +:+ String ":" s' -> a = a' /\ s = s'.
Proof.
  intros Hs Hs'. revert a'. induction a as [|c a IH]; intros [|c' a'];
    rewrite ?append_nil_l, ?append_cons_l.
  - intros [= ->]. auto.
  - intros [= <- ->]. rewrite avoids_app in Hs. simpl in Hs.
    rewrite andb_false_r in Hs. discriminate.
  - intros [= -> <-]. rewrite avoids_app in Hs'. simpl in Hs'.
    rewrite andb_false_r in Hs'. discriminate.
  - intros [= <- Heq]. destruct (IH a' Heq) as [-> ->]. auto.
Qed.

Lemma searchParams_createShoppingList (productsRequired : list Product.t) :
  searchParams (Rich.createShoppingList productsRequired)
  = map shoppingEntry productsRequired.
Proof.
  unfold searchParams, Rich.createShoppingList. fold shoppingEntry.
  destruct (map shoppingEntry productsRequired) as [|entry rest] eqn:Hentries;
    [reflexivity|].
  unfold URL_toString.
  change ("https://www.ah.nl/mijnlijst/add-multiple" +:+ "?"
          +:+ serialize_params (entry :: rest))
    with ("https://www.ah.nl/mijnlijst/add-multiple"
          +:+ String "?" (serialize_params (entry :: rest))).
  rewrite break_at_app by reflexivity. cbn [snd]. apply parse_query_serialize.
Qed.

Lemma urlencode_app (a b : string) :
  urlencode (a +:+ b) = urlencode a +:+ urlencode b.
Proof.
  induction a as [|c a IH]; [reflexivity|].
  rewrite append_cons_l. cbn [urlencode]. rewrite IH.
  destruct (urlencoded_keeps c); [reflexivity|].
  destruct (Ascii.eqb c " "); reflexivity.
Qed.

Lemma urlencode_allDigits (s : string) : allDigits s = true -> urlencode s = s.
Proof.
  induction s as [|c s IH]; [reflexivity|].
  cbn [allDigits urlencode]. intros Hd. apply andb_true_iff in Hd as [Hc Hs].
  rewrite (IH Hs).
  assert (Hk : urlencoded_keeps c = true).
  { unfold urlencoded_keeps. unfold isDigit in Hc. cbv zeta in Hc |- *.
    rewrite Hc. reflexivity. }
  now rewrite Hk.
Qed.

Lemma urlencode_uint (d : Decimal.uint) :
  urlencode (NilEmpty.string_of_uint d) = NilEmpty.string_of_uint d.
Proof.
  induction d; cbn [NilEmpty.string_of_uint urlencode];
    [reflexivity | rewrite IHd; reflexivity ..].
Qed.

Lemma urlencode_nilzero (d : Decimal.uint) :
  urlencode (NilZero.string_of_uint d) = NilZero.string_of_uint d.
Proof.
  destruct d; try reflexivity;
    match goal with
    | |- urlencode (NilZero.string_of_uint ?x) = _ => exact (urlencode_uint x)
    end.
Qed.

(** The quantity text needs no escaping. *)
Lemma urlencode_number_toString (q : number) :
  urlencode (number_toString q) = number_toString q.
Proof.
  destruct q as [z| |[|]]; try reflexivity.
  unfold number_toString, NilZero.string_of_int.
  destruct (Z.to_int z) as [d|d]; [apply urlencode_nilzero|].
  cbn [urlencode]. rewrite urlencode_nilzero. reflexivity.
Qed.

Lemma quantityText_number_toString (q : number) : quantityText q (number_toString q).
Proof. destruct q as [z| |[|]]; try reflexivity. apply int_of_number_toString. Qed.

Lemma shoppingEntry_texts (ps : list Product.t) :
  map shoppingEntry ps
  = map (fun it => ("p", Product.ID (fst it) +:+ ":" +:+ snd it))
        (combine ps (map (fun p => number_toString (Product.Quantity p)) ps)).
Proof. induction ps as [|p ps IH]; [reflexivity|]. cbn [map combine]. now rewrite <- IH. Qed.

Lemma piece_shoppingEntry (p : Product.t) :
  allDigits (Product.ID p) = true ->
  piece (shoppingEntry p)
  = "p=" +:+ Product.ID p +:+ "%3A" +:+ number_toString (Product.Quantity p).
Proof.
  intros Hd. unfold piece, shoppingEntry. cbn [fst snd].
  rewrite urlencode_app, (urlencode_allDigits _ Hd).
  change (":" +:+ number_toString (Product.Quantity p))
    with (String ":" (number_toString (Product.Quantity p))).
  cbn [urlencode]. rewrite urlencode_number_toString.
  change (append (urlencode "p")) with (append "p").
  change (if urlencoded_keeps ":" then ?a else ?b) with b.
  reflexivity.
Qed.

Lemma serialize_shoppingEntries (ps : list Product.t) :
  (forall p, In p ps -> allDigits (Product.ID p) = true) ->
  serialize_params (map shoppingEntry ps)
  = reorderQuery (combine (map Product.ID ps)
                    (map (fun p => number_toString (Product.Quantity p)) ps)).
Proof.
  unfold reorderQuery.
  induction ps as [|p ps IH]; intros Hd; [reflexivity|].
  assert (Hp : allDigits (Product.ID p) = true) by (apply Hd; now left).
  assert (Hps : forall p', In p' ps -> allDigits (Product.ID p') = true)
    by (intros p' Hp'; apply Hd; now right).
  specialize (IH Hps). destruct ps as [|p' ps].
  - cbn [map combine]. rewrite serialize_params_single, (piece_shoppingEntry _ Hp).
    reflexivity.
  - cbn [map] in IH |- *. rewrite serialize_params_cons, (piece_shoppingEntry _ Hp), IH.
    reflexivity.
Qed.

(** C9: take products whose quantity is NaN, infinite or an integer that a
    double holds exactly (at most 2^53 in absolute value).  The shopping list
    is one string that starts with the fixed address
    [https://www.ah.nl/mijnlijst/add-multiple].  Read as [URLSearchParams]
    reads it, it has one entry [p] per product, in the order of the list,
    whose value is the identifier of the product, a colon and the text of its
    quantity.  When the identifiers are digits the string is the address
    alone for an empty list, and otherwise the address, [?] and one
    [p=id%3Aquantity] per product joined by [&]. *)
Theorem createShoppingList_entries (productsRequired : list Product.t) :
  (forall p z, In p productsRequired -> Product.Quantity p = Num z ->
               Z.abs z <= 2 ^ 53) ->
  exists texts,
    Forall2 (fun p t => quantityText (Product.Quantity p) t) productsRequired texts
    /\ (exists query,
           Rich.createShoppingList productsRequired
           = "https://www.ah.nl/mijnlijst/add-multiple" +:+ query)
    /\ searchParams (Rich.createShoppingList productsRequired)
       = map (fun it => ("p", Product.ID (fst it) +:+ ":" +:+ snd it))
             (combine productsRequired texts)
    /\ ((forall p, In p productsRequired -> allDigits (Product.ID p) = true) ->
        Rich.createShoppingList productsRequired
        = "https://www.ah.nl/mijnlijst/add-multiple"
          +:+ match productsRequired with
              | [] => ""
              | _ => "?" +:+ reorderQuery
                               (combine (map Product.ID productsRequired) texts)
              end).
Proof.
  intros _.
  exists (map (fun p => number_toString (Product.Quantity p)) productsRequired).
  split; [|split; [|split]].
  - induction productsRequired as [|p ps IH]; constructor;
      [apply quantityText_number_toString | exact IH].
  - unfold Rich.createShoppingList, URL_toString.
    destruct (map _ productsRequired) as [|entry rest].
    + exists "". reflexivity.
    + exists ("?" +:+ serialize_params (entry :: rest)). reflexivity.
  - rewrite searchParams_createShoppingList. apply shoppingEntry_texts.
  - intros Hd. rewrite <- (serialize_shoppingEntries _ Hd).
    unfold Rich.createShoppingList. fold shoppingEntry. unfold URL_toString.
    destruct productsRequired as [|p ps]; reflexivity.
Qed.

Lemma createShoppingList_entries_witness :
  (forall p z, In p [Ex.tomatoes; Ex.spaghetti] -> Product.Quantity p = Num z ->
               Z.abs z <= 2 ^ 53)
  /\ (forall p, In p [Ex.tomatoes; Ex.spaghetti] -> allDigits (Product.ID p) = true)
  /\ Rich.createShoppingList [Ex.tomatoes; Ex.spaghetti]
     = "https://www.ah.nl/mijnlijst/add-multiple?p=1525%3A3&p=4177%3A1"
  /\ exists texts,
       Forall2 (fun p t => quantityText (Product.Quantity p) t)
         [Ex.tomatoes; Ex.spaghetti] texts
       /\ Rich.createShoppingList [Ex.tomatoes; Ex.spaghetti]
          = "https://www.ah.nl/mijnlijst/add-multiple"
            +:+ "?" +:+ reorderQuery (combine ["1525"; "4177"] texts).
Proof.
  assert (Hq : forall p z, In p [Ex.tomatoes; Ex.spaghetti] ->
                           Product.Quantity p = Num z -> Z.abs z <= 2 ^ 53).
  { intros p z [<-|[<-|[]]] [= <-]; vm_compute; discriminate. }
  assert (Hd : forall p, In p [Ex.tomatoes; Ex.spaghetti] ->
                         allDigits (Product.ID p) = true).
  { intros p [<-|[<-|[]]]; reflexivity. }
  split; [exact Hq|]. split; [exact Hd|]. split; [reflexivity|].
  destruct (createShoppingList_entries [Ex.tomatoes; Ex.spaghetti] Hq)
    as (texts & Htexts & _ & _ & Hraw).
  exists texts. split; [exact Htexts | exact (Hraw Hd)].
Defined.

(** X14: two lists of products with the same shopping list have the same
    length and, position by position, the same identifiers and the same
    quantities. *)
Theorem createShoppingList_injective (ps ps' : list Product.t) :
  Rich.createShoppingList ps = Rich.createShoppingList ps' ->
  map (fun p => (Product.ID p, Product.Quantity p)) ps
  = map (fun p => (Product.ID p, Product.Quantity p)) ps'.
Proof.
  intros Heq. apply (f_equal searchParams) in Heq.
  rewrite !searchParams_createShoppingList in Heq.
  revert ps' Heq. induction ps as [|p ps IH]; intros [|p' ps'] Heq; try discriminate.
  - reflexivity.
  - cbn [map] in Heq |- *. injection Heq as Hentry Hrest.
    change (Product.ID p +:+ String ":" (number_toString (Product.Quantity p))
            = Product.ID p' +:+ String ":" (number_toString (Product.Quantity p')))
      in Hentry.
    apply colon_split in Hentry as [Hid Hq]; try apply number_toString_avoids.
    apply number_toString_inj in Hq. now rewrite Hid, Hq, (IH ps' Hrest).
Qed.

Lemma createShoppingList_injective_witness :
  Rich.createShoppingList [Ex.tomatoes; Ex.rice]
  = Rich.createShoppingList [scaled 1 Ex.tomatoes; scaled 1 Ex.rice]
  /\ map (fun p => (Product.ID p, Product.Quantity p)) [Ex.tomatoes; Ex.rice]
     = map (fun p => (Product.ID p, Product.Quantity p))
         [scaled 1 Ex.tomatoes; scaled 1 Ex.rice].
Proof.
  assert (Heq : Rich.createShoppingList [Ex.tomatoes; Ex.rice]
                = Rich.createShoppingList [scaled 1 Ex.tomatoes; scaled 1 Ex.rice])
    by reflexivity.
  split; [exact Heq | exact (createShoppingList_injective _ _ Heq)].
Defined.

(** ** The bonus list as a set *)

Section BonusSet.
Context `{JsRuntime}.
Variables (b1 b2 : list string).
Hypothesis same_ids : forall id, In id b1 <-> In id b2.

Lemma includes_same (id : string) : includes b1 id = includes b2 id.
Proof.
  destruct (includes b1 id) eqn:H1, (includes b2 id) eqn:H2; try reflexivity.
  - apply includes_In, same_ids, includes_In in H1. congruence.
  - apply includes_In, same_ids, includes_In in H2. congruence.
Qed.

Lemma forallb_pointwise {A : Type} (f g : A -> bool) (l : list A) :
  (forall x, f x = g x) -> forallb f l = forallb g l.
Proof. intros Hfg. induction l as [|x l IH]; simpl; [reflexivity | now rewrite Hfg, IH]. Qed.

Lemma existsb_pointwise {A : Type} (f g : A -> bool) (l : list A) :
  (forall x, f x = g x) -> existsb f l = existsb g l.
Proof. intros Hfg. induction l as [|x l IH]; simpl; [reflexivity | now rewrite Hfg, IH]. Qed.

Lemma rich_keep_same (plan : gmap string (option Rich.RankedMeal)) (day : WeekDay.t)
    (c : Meal.t * list Product.t) :
  Rich.keep b1 plan day c = Rich.keep b2 plan day c.
Proof.
  destruct c as [meal ingredients]. unfold Rich.keep, Rich.isRequiredProductDiscountsValid.
  cbv zeta. f_equal. f_equal. apply forallb_pointwise. intros p. apply includes_same.
Qed.

Lemma rich_scoreMeal_same (day : WeekDay.t) (c : Meal.t * list Product.t) :
  Rich.scoreMeal b1 day c = Rich.scoreMeal b2 day c.
Proof.
  destruct c as [meal ingredients]. unfold Rich.scoreMeal.
  now rewrite (List.filter_ext _ _ (fun p => includes_same (Product.ID p))).
Qed.

Lemma rich_matches_same (meals : list Meal.t) (products : list Product.t)
    (plan : gmap string (option Rich.RankedMeal)) (day : WeekDay.t) :
  Rich.matches meals b1 products plan day = Rich.matches meals b2 products plan day.
Proof.
  unfold Rich.matches.
  rewrite (List.filter_ext _ _ (rich_keep_same plan day)).
  now rewrite (map_ext _ _ (rich_scoreMeal_same day)).
Qed.

Lemma rankLoop_same (meals : list Meal.t) (products : list Product.t)
    (weekPlan : list WeekDay.t) (st : Rich.RankState) :
  Rich.rankLoop meals b1 products weekPlan st = Rich.rankLoop meals b2 products weekPlan st.
Proof.
  revert st. induction weekPlan as [|day rest IH]; intros st; simpl; [reflexivity|].
  unfold Rich.rankDay. rewrite rich_matches_same.
  destruct (Rich.matches meals b2 products (Rich.plan st) day) as [|top ms];
    [apply IH|].
  destruct (negb (Rich.score top =? 0)); [apply IH|].
  destruct (if _ <? 0 then None else _); [apply IH | reflexivity].
Qed.

Lemma strict_matches_same (meals : list Meal.t) (products : list Product.t)
    (day : WeekDay.t) :
  Strict.matches meals b1 products day = Strict.matches meals b2 products day.
Proof.
  unfold Strict.matches.
  assert (Hkeep : forall m, Strict.keep b1 products day m = Strict.keep b2 products day m).
  { intros m. unfold Strict.keep, Strict.isRequiredProductDiscountsValid. cbv zeta.
    f_equal. f_equal. apply existsb_pointwise. intros p. now rewrite includes_same. }
  assert (Hscore : forall m, Strict.score b1 products day m = Strict.score b2 products day m).
  { intros m. unfold Strict.score.
    now rewrite (List.filter_ext _ _ (fun p => includes_same (Product.ID p))). }
  now rewrite (List.filter_ext _ _ Hkeep), (map_ext _ _ Hscore).
Qed.
End BonusSet.

(** X17: the bonus list counts as a set: two lists with the same
    identifiers, in any order and with any repetitions, give the same plan in
    [rankMeals] and the same array in [matchMeals]. *)
Theorem bonus_list_as_set `{JsRuntime} (b1 b2 : list string) (meals : list Meal.t)
    (products : list Product.t) (weekPlan : list WeekDay.t) :
  (forall id, In id b1 <-> In id b2) ->
  Rich.rankMeals meals b1 products weekPlan = Rich.rankMeals meals b2 products weekPlan
  /\ Strict.matchMeals meals b1 products weekPlan
     = Strict.matchMeals meals b2 products weekPlan.
Proof.
  intros Hsame. split.
  - unfold Rich.rankMeals. now rewrite (rankLoop_same b1 b2 Hsame).
  - unfold Strict.matchMeals. apply map_ext. intros day.
    now rewrite (strict_matches_same b1 b2 Hsame).
Qed.

Lemma bonus_list_as_set_witness :
  (forall id, In id ["1525"; "3810"] <-> In id ["3810"; "1525"; "1525"])
  /\ Rich.rankMeals [Ex.pasta; Ex.curry] ["1525"; "3810"]
       [Ex.tomatoes; Ex.spaghetti; Ex.rice] [Ex.monday]
     = Rich.rankMeals [Ex.pasta; Ex.curry] ["3810"; "1525"; "1525"]
         [Ex.tomatoes; Ex.spaghetti; Ex.rice] [Ex.monday].
Proof.
  assert (Hsame : forall id, In id ["1525"; "3810"] <-> In id ["3810"; "1525"; "1525"]).
  { intros id. simpl. tauto. }
  split; [exact Hsame|].
  exact (proj1 (bonus_list_as_set _ _ [Ex.pasta; Ex.curry]
                  [Ex.tomatoes; Ex.spaghetti; Ex.rice] [Ex.monday] Hsame)).
Defined.

(** ** Counting the meals of a plan *)

Lemma slugsOf_length (entries : list (string * option Rich.RankedMeal)) :
  length (List.filter (fun p => match p with Some _ => true | None => false end)
                      (map snd entries))
  = length (slugsOf entries).
Proof.
  induction entries as [|[k [m|]] entries IH]; simpl; auto.
Qed.

Lemma slugsOf_In (entries : list (string * option Rich.RankedMeal)) (slug : string) :
  In slug (slugsOf entries)
  <-> exists k m, In (k, Some m) entries /\ Rich.Slug m = slug.
Proof.
  unfold slugsOf. rewrite in_flat_map. split.
  - intros ([k [m|]] & Hin & Hs); simpl in Hs; [|contradiction].
    destruct Hs as [<-|[]]. eauto.
  - intros (k & m & Hin & <-). exists (k, Some m). split; [exact Hin | now left].
Qed.

Lemma slugsOf_NoDup (entries : list (string * option Rich.RankedMeal)) :
  List.NoDup (map fst entries) ->
  (forall k1 k2 m1 m2, In (k1, Some m1) entries -> In (k2, Some m2) entries ->
                       Rich.Slug m1 = Rich.Slug m2 -> k1 = k2) ->
  List.NoDup (slugsOf entries).
Proof.
  induction entries as [|[k e] entries IH]; intros Hkeys Huniq; [constructor|].
  simpl in Hkeys. inversion Hkeys as [|? ? Hk Hrest]; subst.
  assert (IHn : List.NoDup (slugsOf entries)).
  { apply IH; [assumption|]. intros k1 k2 m1 m2 H1 H2.
    apply Huniq; now right. }
  destruct e as [m|]; [|exact IHn].
  change (List.NoDup (Rich.Slug m :: slugsOf entries)). constructor; [|exact IHn].
  intros Hin. apply slugsOf_In in Hin as (k' & m' & Hin' & Hslug).
  assert (k' = k) as -> by (apply (Huniq k' k m' m); [now right | now left | exact Hslug]).
  apply Hk. apply in_map_iff. exists (k, Some m'). auto.
Qed.

(** X16: the plan of [rankMeals] holds at most as many meals as the
    catalogue has: the number of its non-null entries is at most the number
    of meals. *)
Theorem rankMeals_meals_bound `{JsRuntime} (meals : list Meal.t)
    (bonusProductIds : list string) (products : list Product.t)
    (weekPlan : list WeekDay.t) (plan : gmap string (option Rich.RankedMeal)) :
  Rich.rankMeals meals bonusProductIds products weekPlan = Some plan ->
  (length (List.filter (fun p => match p with Some _ => true | None => false end)
                       (Rich.Object_values plan))
   <= length meals)%nat.
Proof.
  unfold Rich.rankMeals. fold initial.
  destruct (Rich.rankLoop meals bonusProductIds products weekPlan initial) as [st|] eqn:Hrun;
    [|discriminate].
  intros [= <-]. unfold Rich.Object_values. rewrite slugsOf_length.
  rewrite <- (length_map Meal.Slug meals).
  apply NoDup_incl_length.
  - apply slugsOf_NoDup.
    + apply NoDup_ListNoDup. apply (NoDup_fst_map_to_list (Rich.plan st)).
    + intros k1 k2 m1 m2 H1 H2.
      apply list_elem_of_In, elem_of_map_to_list in H1, H2.
      apply (rankLoop_SlugsUnique _ _ _ _ _ _ Hrun SlugsUnique_empty _ _ _ _ H1 H2).
  - intros slug Hin. apply slugsOf_In in Hin as (k & m & Hin & <-).
    apply list_elem_of_In, elem_of_map_to_list in Hin.
    destruct (rankLoop_entries_at meals bonusProductIds products
                (fun _ m => In (Rich.meal m) meals)) with
      (weekPlan := weekPlan) (st := initial) (st' := st) (d := k) (m := m)
      as [Hold|(day & _ & _ & Hmeal)]; try assumption.
    + intros plan day c Hc. apply rich_matches_In in Hc as (meal & Hmeal & _ & ->).
      exact Hmeal.
    + simpl in Hold. rewrite lookup_empty in Hold. discriminate.
    + apply in_map_iff. exists (Rich.meal m). auto.
Qed.

Lemma rankMeals_meals_bound_witness :
  exists plan,
    Rich.rankMeals [Ex.pasta] [] [Ex.spaghetti] [Ex.monday; Ex.thursday] = Some plan
    /\ (length (List.filter (fun p => match p with Some _ => true | None => false end)
                            (Rich.Object_values plan))
        <= length [Ex.pasta])%nat.
Proof.
  destruct (Rich.rankMeals [Ex.pasta] [] [Ex.spaghetti] [Ex.monday; Ex.thursday])
    as [plan|] eqn:Hrun; [|vm_compute in Hrun; discriminate].
  exists plan. split; [reflexivity|].
  exact (rankMeals_meals_bound _ _ _ _ _ Hrun).
Defined.

(** ** The evaluators of the two revisions, side by side *)

(** X18: on every list of products and every bonus list the discount
    predicate of the strict revision is the negation of the one of the rich
    revision: it is true when some product marked [IsBonusRequired] is
    missing from the bonus list. *)
Theorem strict_discounts_negate_rich (productsRequired : list Product.t)
    (bonusProductIds : list string) :
  Strict.isRequiredProductDiscountsValid productsRequired bonusProductIds
  = negb (Rich.isRequiredProductDiscountsValid productsRequired bonusProductIds)
  /\ (Strict.isRequiredProductDiscountsValid productsRequired bonusProductIds = true
      <-> exists p, In p productsRequired
                    /\ Product.IsBonusRequired p = true
                    /\ ~ In (Product.ID p) bonusProductIds).
Proof.
  split.
  - unfold Strict.isRequiredProductDiscountsValid, Rich.isRequiredProductDiscountsValid.
    induction productsRequired as [|p l IH]; [reflexivity|].
    cbn [existsb List.filter]. rewrite IH.
    destruct (Product.IsBonusRequired p); cbn [forallb andb orb]; [|reflexivity].
    destruct (includes bonusProductIds (Product.ID p)); reflexivity.
  - unfold Strict.isRequiredProductDiscountsValid. rewrite existsb_exists. split.
    + intros (p & Hin & Hp). apply andb_true_iff in Hp as [Hreq Hmiss].
      exists p. repeat split; try assumption.
      intros Hb. apply includes_In in Hb. rewrite Hb in Hmiss. discriminate.
    + intros (p & Hin & Hreq & Hmiss). exists p. split; [exact Hin|].
      rewrite Hreq. simpl. destruct (includes bonusProductIds (Product.ID p)) eqn:Hb;
        [|reflexivity].
      apply includes_In in Hb. contradiction.
Qed.

Lemma strict_discounts_negate_rich_witness :
  (exists p, In p [Ex.tomatoes; Ex.spaghetti]
             /\ Product.IsBonusRequired p = true /\ ~ In (Product.ID p) [])
  /\ Strict.isRequiredProductDiscountsValid [Ex.tomatoes; Ex.spaghetti] [] = true.
Proof.
  assert (Hex : exists p, In p [Ex.tomatoes; Ex.spaghetti]
                          /\ Product.IsBonusRequired p = true /\ ~ In (Product.ID p) []).
  { exists Ex.tomatoes. split; [now left|]. split; [reflexivity|]. intros []. }
  split; [exact Hex|].
  exact (proj2 (proj2 (strict_discounts_negate_rich [Ex.tomatoes; Ex.spaghetti] [])) Hex).
Defined.

(** X19: a list of products that passes the shelf-life check of the strict
    revision passes the one of the rich revision, and the two checks agree on
    every list whose products all have a shelf life that is present and not
    zero. *)
Theorem shelf_life_strict_implies_rich `{JsRuntime} (productsRequired : list Product.t)
    (date : string) :
  (Strict.isProductShelfLifeValid productsRequired date = true ->
   Rich.isProductShelfLifeValid productsRequired date = true)
  /\ ((forall p, In p productsRequired ->
                 exists s, Product.MaxShelfLifeInDays p = Some s /\ s <> 0) ->
      Strict.isProductShelfLifeValid productsRequired date
      = Rich.isProductShelfLifeValid productsRequired date).
Proof.
  unfold Strict.isProductShelfLifeValid, Rich.isProductShelfLifeValid. split.
  - rewrite !forallb_forall. intros Hall p Hp. specialize (Hall p Hp).
    destruct (Product.MaxShelfLifeInDays p) as [s|]; [|reflexivity].
    destruct (dayInWeek date); [|discriminate]. rewrite Hall. apply orb_true_r.
  - intros Hpresent. induction productsRequired as [|p l IH]; [reflexivity|].
    cbn [forallb]. rewrite IH by (intros q Hq; apply Hpresent; now right).
    destruct (Hpresent p (or_introl eq_refl)) as (s & -> & Hs).
    destruct (Z.eqb_spec s 0) as [|_]; [contradiction|].
    destruct (dayInWeek date); reflexivity.
Qed.

Lemma shelf_life_strict_implies_rich_witness :
  Strict.isProductShelfLifeValid [Ex.tomatoes] "2024-01-04" = true
  /\ Rich.isProductShelfLifeValid [Ex.tomatoes] "2024-01-04" = true.
Proof.
  assert (Hs : Strict.isProductShelfLifeValid [Ex.tomatoes] "2024-01-04" = true)
    by reflexivity.
  split; [exact Hs|].
  exact (proj1 (shelf_life_strict_implies_rich [Ex.tomatoes] "2024-01-04") Hs).
Defined.
